(** * Transcripteur Whisper: worker / UI hand-off

    Shallow embedding of [app.py]: the background worker
    [worker_transcribe], the event queue it shares with the window, and
    the handlers of [App] ([browse_file], [start_transcription],
    [poll_queue], [save_txt]).

    Conventions of the embedding.
    - A Python [str] is the list of its Unicode code points ([pystr]).
    - Durations and progress fractions are Python floats: binary64
      numbers, here Rocq's primitive floats with the same operations
      (rounding to nearest, infinities, NaN).
    - The speech engine ([faster_whisper.WhisperModel]) is outside the
      program: it is a parameter of the worker.  A call either returns or
      raises an [Exception] whose [str()] is carried by [Raise]; the
      segments come from a generator, which yields them one at a time
      and may itself raise while it is iterated.
    - Some literals of the source hold typographic spaces: U+00A0 before
      the colon of the two error messages, U+202F in the label
      [Large v3 (CPU lourd)].  They are kept as they are.
    - Timers ([after]) and the thread scheduler are not part of the
      embedding: the functions below are the bodies that run. *)

From Stdlib Require Import ZArith Floats List String Bool Lia.
From Stdlib Require Strings.Byte.
From Stdlib Require Import Sorting.Sorted.
Import ListNotations.

Set Warnings "-inexact-float".

(* ------------------------------------------------------------------ *)
(** ** Python strings and the UTF-8 codec *)

Module PyStr.
Local Open Scope Z_scope.

(** A [str] value: the sequence of its code points. *)
Definition pystr := list Z.

Definition is_surrogate (c : Z) : bool := (0xD800 <=? c) && (c <=? 0xDFFF).

(** [str.encode("utf-8")] for one code point; [None] is
    [UnicodeEncodeError] (lone surrogates cannot be encoded). *)
Definition encode_cp (c : Z) : option (list Z) :=
  if c <? 0 then None
  else if c <? 0x80 then Some [c]
  else if c <? 0x800 then Some [0xC0 + c / 64; 0x80 + c mod 64]
  else if c <? 0x10000 then
    if is_surrogate c then None
    else Some [0xE0 + c / 4096; 0x80 + (c / 64) mod 64; 0x80 + c mod 64]
  else if c <? 0x110000 then
    Some [0xF0 + c / 262144; 0x80 + (c / 4096) mod 64;
          0x80 + (c / 64) mod 64; 0x80 + c mod 64]
  else None.

Fixpoint utf8_encode (s : pystr) : option (list Z) :=
  match s with
  | [] => Some []
  | c :: s' =>
      match encode_cp c, utf8_encode s' with
      | Some bs, Some bs' => Some (bs ++ bs')
      | _, _ => None
      end
  end.

Definition is_cont (b : Z) : bool := (0x80 <=? b) && (b <? 0xC0).

(** [bytes.decode("utf-8")], strict: overlong forms, surrogates, values
    above U+10FFFF and truncated sequences are [UnicodeDecodeError]. *)
Fixpoint utf8_decode (bs : list Z) : option pystr :=
  match bs with
  | [] => Some []
  | b0 :: r0 =>
      if (0 <=? b0) && (b0 <? 0x80) then option_map (cons b0) (utf8_decode r0)
      else if (0xC2 <=? b0) && (b0 <? 0xE0) then
        match r0 with
        | b1 :: r1 =>
            if is_cont b1
            then option_map (cons ((b0 - 0xC0) * 64 + (b1 - 0x80))) (utf8_decode r1)
            else None
        | _ => None
        end
      else if (0xE0 <=? b0) && (b0 <? 0xF0) then
        match r0 with
        | b1 :: b2 :: r2 =>
            let c := ((b0 - 0xE0) * 64 + (b1 - 0x80)) * 64 + (b2 - 0x80) in
            if is_cont b1 && is_cont b2 && (0x800 <=? c) && negb (is_surrogate c)
            then option_map (cons c) (utf8_decode r2)
            else None
        | _ => None
        end
      else if (0xF0 <=? b0) && (b0 <? 0xF5) then
        match r0 with
        | b1 :: b2 :: b3 :: r3 =>
            let c := (((b0 - 0xF0) * 64 + (b1 - 0x80)) * 64 + (b2 - 0x80)) * 64
                     + (b3 - 0x80) in
            if is_cont b1 && is_cont b2 && is_cont b3
               && (0x10000 <=? c) && (c <? 0x110000)
            then option_map (cons c) (utf8_decode r3)
            else None
        | _ => None
        end
      else None
  end.

(** String literals of the source file.  The source is UTF-8 text, so a
    literal denotes the decoding of its bytes. *)
Definition bytes_of_string (s : string) : list Z :=
  map (fun b => Z.of_N (Byte.to_N b)) (list_byte_of_string s).

Definition py (s : string) : pystr :=
  match utf8_decode (bytes_of_string s) with
  | Some u => u
  | None => []
  end.

(** [s == t]. *)
Fixpoint pystr_eqb (s t : pystr) : bool :=
  match s, t with
  | [], [] => true
  | a :: s', b :: t' => (a =? b) && pystr_eqb s' t'
  | _, _ => false
  end.

(** Truth value of a [str]: the empty string is falsy. *)
Definition truthy (s : pystr) : bool :=
  match s with [] => false | _ => true end.

(** The line break literal ["\n"]. *)
Definition LF : pystr := [10].

End PyStr.
Import PyStr.

(* ------------------------------------------------------------------ *)
(** ** Float helpers *)

Module PyNum.
Local Open Scope float_scope.

(** [x / y]; [None] is [ZeroDivisionError], raised when the divisor
    compares equal to zero. *)
Definition truediv (x y : float) : option float :=
  if PrimFloat.eqb y 0 then None else Some (x / y).

(** [min(x, y)] as the builtin computes it: the first argument is kept
    unless the second is strictly smaller. *)
Definition py_min (x y : float) : float := if PrimFloat.ltb y x then y else x.

(** [d or 1] for a duration that may be [None]: [None] and zero are
    falsy (NaN is not). *)
Definition falsy (d : option float) : bool :=
  match d with
  | None => true
  | Some x => PrimFloat.eqb x 0
  end.

Definition or_1 (d : option float) : float :=
  match d with
  | None => 1
  | Some x => if PrimFloat.eqb x 0 then 1 else x
  end.

End PyNum.
Import PyNum.

(* ------------------------------------------------------------------ *)
(** ** Status events and the queue *)

(** The tuples posted on the queue: [("progress", pct)],
    [("text", segment_text)], [("done", full_text)], [("error", msg)]. *)
Inductive event : Type :=
| Progress (pct : float)
| Text (segment_text : pystr)
| Done (full_text : pystr)
| Error (msg : pystr).

(** [queue.Queue]: FIFO, [put] at the back, [get_nowait] from the front. *)
Definition Queue := list event.

Definition is_terminal (e : event) : bool :=
  match e with
  | Done _ | Error _ => true
  | _ => false
  end.

(* ------------------------------------------------------------------ *)
(** ** The external engine *)

Inductive result (A : Type) : Type :=
| Ok (a : A)
| Raise (str_e : pystr).
Arguments Ok {A} a.
Arguments Raise {A} str_e.

Record Segment : Type := mkSegment {
  seg_start : float;
  seg_end : float;
  seg_text : pystr
}.

Record TranscriptionInfo : Type := mkInfo {
  duration : option float
}.

(** The generator [m.transcribe] returns: iterating it yields the next
    segment, or finds it exhausted, or raises an [Exception] (decoding
    is done while the generator is iterated). *)
Inductive Segments : Type :=
| Exhausted
| Yield (seg : Segment) (rest : Segments)
| Broken (str_e : pystr).

(** The generator that yields the given segments and is then
    exhausted. *)
Fixpoint yields (segments : list Segment) : Segments :=
  match segments with
  | [] => Exhausted
  | seg :: rest => Yield seg (yields rest)
  end.

(** A loaded model: [m.transcribe(audio_path, language=lang_code, ...)]. *)
Definition Model : Type :=
  pystr -> pystr -> result (Segments * TranscriptionInfo).

(** [WhisperModel(model_size, device="cpu", compute_type="int8")]. *)
Definition Loader : Type := pystr -> result Model.

(* ------------------------------------------------------------------ *)
(** ** The worker thread *)

Module Worker.

(** How a thread body ends: it returns, or an exception nobody catches
    kills the thread. *)
Inductive completion (A : Type) : Type :=
| Returned (a : A)
| Uncaught_ZeroDivisionError
| Uncaught (str_e : pystr).
Arguments Returned {A} a.
Arguments Uncaught_ZeroDivisionError {A}.
Arguments Uncaught {A} str_e.

(** Computations of the worker: they post on the queue and may die. *)
Definition Thread (A : Type) : Type := Queue -> completion A * Queue.

Definition ret {A} (a : A) : Thread A := fun q => (Returned a, q).

Definition bind {A B} (m : Thread A) (k : A -> Thread B) : Thread B :=
  fun q =>
    match m q with
    | (Returned a, q') => k a q'
    | (Uncaught_ZeroDivisionError, q') => (Uncaught_ZeroDivisionError, q')
    | (Uncaught e, q') => (Uncaught e, q')
    end.

Definition put (e : event) : Thread unit := fun q => (Returned tt, q ++ [e]).

Definition divide (x y : float) : Thread float :=
  fun q =>
    match truediv x y with
    | Some r => (Returned r, q)
    | None => (Uncaught_ZeroDivisionError, q)
    end.

(** An exception that no [except] clause of the worker covers. *)
Definition propagate {A} (str_e : pystr) : Thread A := fun q => (Uncaught str_e, q).

Notation "x <- m ;; k" := (bind m (fun x => k))
  (at level 61, m at next level, right associativity).
Notation "m ;;; k" := (bind m (fun _ => k))
  (at level 61, right associativity).

(** The loop [for seg in segments], threading [done] and [full_text].
    It stands outside both [try] blocks. *)
Fixpoint for_segments (duration : float) (segments : Segments)
    (done : float) (full_text : pystr) : Thread (float * pystr) :=
  match segments with
  | Exhausted => ret (done, full_text)
  | Broken e => propagate e
  | Yield seg rest =>
      let done := (done + (seg_end seg - seg_start seg))%float in
      pct <- divide done duration ;;
      put (Progress (py_min pct 1)) ;;;
      put (Text (seg_text seg)) ;;;
      let full_text := full_text ++ (seg_text seg ++ LF) in
      for_segments duration rest done full_text
  end.

Definition worker_transcribe (WhisperModel : Loader)
    (audio_path model_size lang_code : pystr) : Thread unit :=
  match WhisperModel model_size with
  | Raise e => put (Error (py "Erreur chargement modèle : " ++ e))
  | Ok m =>
      match m audio_path lang_code with
      | Raise e => put (Error (py "Erreur transcription : " ++ e))
      | Ok (segments, info) =>
          let duration := or_1 (duration info) in
          r <- for_segments duration segments 0%float [] ;;
          put (Done (snd r))
      end
  end.

End Worker.

Import Worker.

(* ------------------------------------------------------------------ *)
(** ** Constants *)

(** A [dict] with string keys, in insertion order. *)
Definition dict := list (pystr * pystr).

(** [d[k]]; [None] is [KeyError]. *)
Fixpoint getitem (d : dict) (k : pystr) : option pystr :=
  match d with
  | [] => None
  | (k', v) :: d' => if pystr_eqb k' k then Some v else getitem d' k
  end.

Definition keys (d : dict) : list pystr := map fst d.

Definition MODELS : dict :=
  [ (py "Tiny", py "tiny");
    (py "Base", py "base");
    (py "Small", py "small");
    (py "Medium", py "medium");
    (py "Large v3 (CPU lourd)", py "large-v3") ].

Definition LANGS : dict :=
  [ (py "Français", py "fr");
    (py "Anglais", py "en");
    (py "Espagnol", py "es");
    (py "Allemand", py "de");
    (py "Italien", py "it");
    (py "Portugais", py "pt");
    (py "Néerlandais", py "nl");
    (py "Russe", py "ru");
    (py "Arabe", py "ar");
    (py "Chinois", py "zh");
    (py "Japonais", py "ja") ].

Definition DEFAULT_LANG : pystr := py "Français".

(* ------------------------------------------------------------------ *)
(** ** The file system *)

(** What the handlers see of the file system: the regular files with
    their bytes; for each path the [str(e)] of the [OSError] that
    [open(path, "w")] raises there, if it raises; and for each path the
    [str(e)] of the [OSError] that writing to or closing the opened file
    raises, if it does, with the bytes that are then left in the file. *)
Record FS : Type := mkFS {
  content : pystr -> option (list Z);
  open_error : pystr -> option pystr;
  write_error : pystr -> option (pystr * list Z)
}.

(** The platform decides [os.linesep]. *)
Inductive platform : Type := posix | windows.

Definition linesep (pf : platform) : pystr :=
  match pf with
  | posix => [10]%Z
  | windows => [13; 10]%Z
  end.

(** A file opened in text mode with the default [newline=None]: on
    writing, every line feed becomes [os.linesep]. *)
Fixpoint translate_newlines (sep : pystr) (s : pystr) : pystr :=
  match s with
  | [] => []
  | c :: s' =>
      if (c =? 10)%Z then sep ++ translate_newlines sep s'
      else c :: translate_newlines sep s'
  end.

(** On reading, a carriage return followed by a line feed, and a lone
    carriage return, both become one line feed. *)
Fixpoint universal_newlines (s : pystr) : pystr :=
  match s with
  | [] => []
  | c :: s' =>
      if (c =? 13)%Z then
        match s' with
        | d :: s'' =>
            if (d =? 10)%Z then 10%Z :: universal_newlines s''
            else 10%Z :: universal_newlines s'
        | [] => [10%Z]
        end
      else c :: universal_newlines s'
  end.

(** [os.path.isfile]. *)
Definition isfile (fs : FS) (path : pystr) : bool :=
  match content fs path with
  | Some _ => true
  | None => false
  end.

(** The file at [path] now holds [bs]. *)
Definition store (fs : FS) (path : pystr) (bs : list Z) : FS :=
  mkFS (fun p => if pystr_eqb p path then Some bs else content fs p)
       (open_error fs) (write_error fs).

(** [open(path, encoding="utf-8").read()]; the outer [None] is a missing
    file, the inner one a [UnicodeDecodeError]. *)
Definition read_text (fs : FS) (path : pystr) : option (option pystr) :=
  option_map (fun bs => option_map universal_newlines (utf8_decode bs))
             (content fs path).

(* ------------------------------------------------------------------ *)
(** ** The window *)

Module UI.

Inductive widget_state : Type := normal | disabled.

(** A modal dialog of [tkinter.messagebox]. *)
Inductive dialog : Type :=
| showinfo (title message : pystr)
| showerror (title message : pystr).

(** The arguments a worker thread is started with (the queue is the
    window's own). *)
Record Request : Type := mkRequest {
  audio_path : pystr;
  model_size : pystr;
  lang_code : pystr
}.

(** The state of [App].  [full_text] is [None] until the attribute is
    first assigned.  [threads] lists the threads started so far, oldest
    first ([self.thread] is the last one); [dialogs] lists the dialogs
    shown so far.  [progress] is the value last handed to
    [self.progress.set].  The text box is switched to [normal] around
    each edit and back to [disabled]; that flag is not kept. *)
Record App : Type := mkApp {
  combo_model : pystr;
  combo_lang : pystr;
  entry_file : pystr;
  progress : float;
  txt : pystr;
  btn_start : widget_state;
  btn_save : widget_state;
  full_text : option pystr;
  q : Queue;
  threads : list Request;
  dialogs : list dialog
}.

Definition set_entry_file v s :=
  mkApp (combo_model s) (combo_lang s) v (progress s) (txt s) (btn_start s)
        (btn_save s) (full_text s) (q s) (threads s) (dialogs s).
Definition set_progress v s :=
  mkApp (combo_model s) (combo_lang s) (entry_file s) v (txt s) (btn_start s)
        (btn_save s) (full_text s) (q s) (threads s) (dialogs s).
Definition set_txt v s :=
  mkApp (combo_model s) (combo_lang s) (entry_file s) (progress s) v (btn_start s)
        (btn_save s) (full_text s) (q s) (threads s) (dialogs s).
Definition set_btn_start v s :=
  mkApp (combo_model s) (combo_lang s) (entry_file s) (progress s) (txt s) v
        (btn_save s) (full_text s) (q s) (threads s) (dialogs s).
Definition set_btn_save v s :=
  mkApp (combo_model s) (combo_lang s) (entry_file s) (progress s) (txt s)
        (btn_start s) v (full_text s) (q s) (threads s) (dialogs s).
Definition set_full_text v s :=
  mkApp (combo_model s) (combo_lang s) (entry_file s) (progress s) (txt s)
        (btn_start s) (btn_save s) v (q s) (threads s) (dialogs s).
Definition set_q v s :=
  mkApp (combo_model s) (combo_lang s) (entry_file s) (progress s) (txt s)
        (btn_start s) (btn_save s) (full_text s) v (threads s) (dialogs s).
Definition start_thread r s :=
  mkApp (combo_model s) (combo_lang s) (entry_file s) (progress s) (txt s)
        (btn_start s) (btn_save s) (full_text s) (q s) (threads s ++ [r]) (dialogs s).
Definition show d s :=
  mkApp (combo_model s) (combo_lang s) (entry_file s) (progress s) (txt s)
        (btn_start s) (btn_save s) (full_text s) (q s) (threads s) (dialogs s ++ [d]).

(** [App.__init__]. *)
Definition init : App :=
  mkApp (py "Large v3 (CPU lourd)") DEFAULT_LANG [] 0%float [] disabled disabled
        None [] [] [].

(** [browse_file]; [path] is what the file dialog returned (empty when
    the user cancels). *)
Definition browse_file (path : pystr) (s : App) : App :=
  if truthy path then set_btn_start normal (set_entry_file path s) else s.

(** [start_transcription].  A [KeyError] from a label that is in
    neither table ends the callback where it is raised. *)
Definition start_transcription (fs : FS) (s : App) : App :=
  let audio_path := entry_file s in
  if negb (isfile fs audio_path) then
    show (showerror (py "Erreur") (py "Fichier invalide.")) s
  else
    let s := set_txt [] s in
    let s := set_progress 0%float s in
    let s := set_btn_start disabled s in
    let s := set_btn_save disabled s in
    match getitem MODELS (combo_model s) with
    | None => s
    | Some model_size =>
        match getitem LANGS (combo_lang s) with
        | None => s
        | Some lang_code =>
            let s := set_q [] s in
            start_thread (mkRequest audio_path model_size lang_code) s
        end
    end.

(** One turn of the [while True] loop of [poll_queue] after
    [get_nowait] returned [msg]. *)
Definition dispatch (msg : event) (s : App) : App :=
  match msg with
  | Progress payload => set_progress payload s
  | Text payload => set_txt (txt s ++ payload) s
  | Done payload =>
      let s := set_full_text (Some payload) s in
      let s := set_btn_save normal s in
      show (showinfo (py "Terminé") (py "Transcription terminée !")) s
  | Error payload =>
      let s := show (showerror (py "Erreur") payload) s in
      set_btn_start normal s
  end.

(** The loop itself: messages are taken from the front until
    [queue.Empty]. *)
Fixpoint drain (pending : Queue) (s : App) : App :=
  match pending with
  | [] => s
  | msg :: rest => drain rest (dispatch msg (set_q rest s))
  end.

Definition poll_queue (s : App) : App := drain (q s) s.

(** The Start button: a disabled button does not call its command. *)
Definition click_start (fs : FS) (s : App) : App :=
  match btn_start s with
  | normal => start_transcription fs s
  | disabled => s
  end.

Section Save.

(** The text of the [UnicodeEncodeError] the interpreter raises when a
    [str] that UTF-8 cannot encode is written. *)
Variable str_UnicodeEncodeError : pystr -> pystr.

(** The platform the application runs on. *)
Variable pf : platform.

(** [save_txt]; [path] is what the save dialog returned.  The file is
    truncated when it is opened; the text is then translated, encoded
    and written. *)
Definition save_txt (path : pystr) (fs : FS) (s : App) : App * FS :=
  if truthy path then
    match open_error fs path with
    | Some e => (show (showerror (py "Erreur") e) s, fs)
    | None =>
        let fs := store fs path [] in
        match full_text s with
        | None =>
            (show (showerror (py "Erreur")
                     (py "'App' object has no attribute 'full_text'")) s, fs)
        | Some text =>
            match utf8_encode (translate_newlines (linesep pf) text) with
            | None =>
                (show (showerror (py "Erreur") (str_UnicodeEncodeError text)) s, fs)
            | Some bs =>
                match write_error fs path with
                | Some (e, remains) =>
                    (show (showerror (py "Erreur") e) s, store fs path remains)
                | None =>
                    (show (showinfo (py "Enregistré")
                             (py "Fichier enregistré :" ++ LF ++ path)) s,
                     store fs path bs)
                end
            end
        end
    end
  else (s, fs).

(** The Save button, likewise. *)
Definition click_save (path : pystr) (fs : FS) (s : App) : App * FS :=
  match btn_save s with
  | normal => save_txt path fs s
  | disabled => (s, fs)
  end.

End Save.

(** The thread started for [r] runs to its end: its messages land on the
    window's queue. *)
Definition run_thread (WhisperModel : Loader) (r : Request) (s : App) : App :=
  set_q (snd (worker_transcribe WhisperModel (audio_path r) (model_size r)
                (lang_code r) (q s))) s.

End UI.
Import UI.

(* ------------------------------------------------------------------ *)
(** ** Views of a run used in the statements *)

(** The messages one run of the worker posts, in order. *)
Definition emitted (WhisperModel : Loader) (audio_path model_size lang_code : pystr)
  : list event :=
  snd (worker_transcribe WhisperModel audio_path model_size lang_code []).

Fixpoint text_payloads (evs : list event) : list pystr :=
  match evs with
  | [] => []
  | Text t :: evs' => t :: text_payloads evs'
  | _ :: evs' => text_payloads evs'
  end.

Fixpoint progress_payloads (evs : list event) : list float :=
  match evs with
  | [] => []
  | Progress p :: evs' => p :: progress_payloads evs'
  | _ :: evs' => progress_payloads evs'
  end.

Definition is_done (e : event) : bool :=
  match e with Done _ => true | _ => false end.

Definition is_error (e : event) : bool :=
  match e with Error _ => true | _ => false end.

(** The payload of the last Done message of a list, if it has one. *)
Fixpoint last_done (evs : list event) : option pystr :=
  match evs with
  | [] => None
  | e :: evs' =>
      match last_done evs' with
      | Some p => Some p
      | None => match e with Done p => Some p | _ => None end
      end
  end.

(** The dialogs the poll loop shows for a list of messages. *)
Fixpoint notices (evs : list event) : list dialog :=
  match evs with
  | [] => []
  | Done _ :: evs' =>
      showinfo (py "Terminé") (py "Transcription terminée !") :: notices evs'
  | Error payload :: evs' => showerror (py "Erreur") payload :: notices evs'
  | _ :: evs' => notices evs'
  end.

(** A run of Progress/Text pairs closed by one terminal message. *)
Inductive run_shape : list event -> Prop :=
| run_end : forall e, is_terminal e = true -> run_shape [e]
| run_pair : forall p t rest,
    run_shape rest -> run_shape (Progress p :: Text t :: rest).

(** What the loop posts for [segments] when the divisor is [duration],
    and the text it accumulates. *)
Fixpoint loop_events (duration : float) (segments : list Segment) (done : float)
  : list event :=
  match segments with
  | [] => []
  | seg :: rest =>
      let done := (done + (seg_end seg - seg_start seg))%float in
      Progress (py_min (done / duration) 1) :: Text (seg_text seg)
        :: loop_events duration rest done
  end.

Definition lines (segments : list Segment) : pystr :=
  List.concat (map (fun seg => seg_text seg ++ LF) segments).

(** The segments a generator yields before it ends, and the exception
    that ends it when it is not exhausted. *)
Fixpoint yielded (g : Segments) : list Segment :=
  match g with
  | Yield seg rest => seg :: yielded rest
  | _ => []
  end.

Fixpoint breaks (g : Segments) : option pystr :=
  match g with
  | Exhausted => None
  | Yield _ rest => breaks rest
  | Broken e => Some e
  end.

(* ------------------------------------------------------------------ *)
(** ** Sample inputs *)

(** An engine that loads and answers with the given segments. *)
Definition engine_of (segments : list Segment) (info : TranscriptionInfo) : Loader :=
  fun _ => Ok (fun _ _ => Ok (yields segments, info)).

(** An engine whose generator yields one segment and then raises. *)
Definition failing_decoder : Loader :=
  fun _ => Ok (fun _ _ =>
    Ok (Yield (mkSegment 0 1 (py "Hello ")) (Broken (py "decoding failed")),
        mkInfo (Some 2%float))).

(** An engine whose model cannot be loaded. *)
Definition broken_loader (str_e : pystr) : Loader := fun _ => Raise str_e.

(** A file system holding one audio file, where every path can be
    written. *)
Definition sample_fs : FS :=
  mkFS (fun p => if pystr_eqb p (py "a.wav") then Some [82; 73; 70; 70]%Z else None)
       (fun _ => None) (fun _ => None).

Definition hello_world : list Segment :=
  [ mkSegment 0 1.2 (py "Hello "); mkSegment 1.2 2.5 (py "world.") ]%float.


(** The request the window makes for [a.wav] with its default
    choices. *)
Definition sample_request : Request :=
  mkRequest (py "a.wav") (py "large-v3") (py "fr").

Definition sample_engine : Loader :=
  engine_of hello_world (mkInfo (Some 2.5%float)).

(** The window after a first run went through: file chosen, Start
    clicked, thread finished, queue polled. *)
Definition after_first_run : App :=
  poll_queue
    (run_thread sample_engine sample_request
       (click_start sample_fs (browse_file (py "a.wav") init))).

(* ------------------------------------------------------------------ *)
(** ** More views of the worker and of the tables *)

Definition values (d : dict) : list pystr := map snd d.

(** The audio time the segments cover, added up as the loop adds it. *)
Definition covered (segments : list Segment) : float :=
  fold_left (fun done seg => (done + (seg_end seg - seg_start seg))%float)
            segments 0%float.

(** The fraction the loop posts once [done] has been reached. *)
Definition fraction (duration done : float) : float :=
  py_min (done / duration) 1.

(* ------------------------------------------------------------------ *)
(** ** What the user and the threads can do to the window *)

(** The path field and the two combo boxes are ordinary editable
    widgets. *)
Definition set_combo_model v s :=
  mkApp v (combo_lang s) (entry_file s) (progress s) (txt s) (btn_start s)
        (btn_save s) (full_text s) (q s) (threads s) (dialogs s).
Definition set_combo_lang v s :=
  mkApp (combo_model s) v (entry_file s) (progress s) (txt s) (btn_start s)
        (btn_save s) (full_text s) (q s) (threads s) (dialogs s).

(** Some thread posts messages on the window's queue. *)
Definition post (evs : list event) (s : App) : App := set_q (q s ++ evs) s.

(** The window once the poll loop has consumed [evs]: the closed form
    of the loop. *)
Definition polled (evs : list event) (s : App) : App :=
  mkApp (combo_model s) (combo_lang s) (entry_file s)
        (last (progress_payloads evs) (progress s))
        (txt s ++ List.concat (text_payloads evs))
        (if existsb is_error evs then normal else btn_start s)
        (if existsb is_done evs then normal else btn_save s)
        (match last_done evs with Some p => Some p | None => full_text s end)
        []
        (threads s)
        (dialogs s ++ notices evs).

Inductive action : Type :=
| Browse (path : pystr)            (* the Parcourir button and its dialog *)
| EditPath (text : pystr)          (* typing in the path field *)
| SelectModel (label : pystr)
| SelectLang (label : pystr)
| ClickStart (fs : FS)             (* the Lancer button *)
| ClickSave (path : pystr) (fs : FS)  (* the Enregistrer button and its dialog *)
| Poll                             (* the timer fires *)
| Post (e : event).                (* a thread calls [q.put] *)

Definition step (str_UnicodeEncodeError : pystr -> pystr) (pf : platform)
    (a : action) (s : App) : App :=
  match a with
  | Browse path => browse_file path s
  | EditPath text => set_entry_file text s
  | SelectModel label => set_combo_model label s
  | SelectLang label => set_combo_lang label s
  | ClickStart fs => click_start fs s
  | ClickSave path fs => fst (click_save str_UnicodeEncodeError pf path fs s)
  | Poll => poll_queue s
  | Post e => post [e] s
  end.

(** The window after a sequence of actions, first action first. *)
Definition run (str_UnicodeEncodeError : pystr -> pystr) (pf : platform)
    (acts : list action) (s : App) : App :=
  fold_left (fun s a => step str_UnicodeEncodeError pf a s) acts s.

(** A request whose identifiers come from the two tables. *)
Definition known_request (r : Request) : Prop :=
  In (model_size r) (values MODELS) /\ In (lang_code r) (values LANGS).

(* ------------------------------------------------------------------ *)
(** ** The asset cache *)

Module Assets.

Section OS.

(** The operating system as [_ensure_vad_assets] uses it.  A call that
    can raise returns the disk as it left it and the [str()] of the
    exception, if any. *)
Variable Disk : Type.
Variable path_exists : Disk -> pystr -> bool.                    (* [Path.exists] *)
Variable mkdir_p : pystr -> Disk -> Disk * option pystr.         (* [mkdir(parents=True, exist_ok=True)] *)
Variable copy2 : pystr -> pystr -> Disk -> Disk * option pystr.  (* [shutil.copy2] *)
Variable joinpath : pystr -> pystr -> pystr.                     (* [Path / name] *)

Definition asset_names : list pystr :=
  [ py "silero_encoder_v5.onnx"; py "silero_decoder_v5.onnx" ].

(** The [for fname in (...)] loop; [out] is what has been printed. *)
Fixpoint copy_loop (src_assets dst_assets : pystr) (names : list pystr)
    (d : Disk) (out : list pystr) : Disk * list pystr :=
  match names with
  | [] => (d, out)
  | fname :: rest =>
      let src := joinpath src_assets fname in
      let dst := joinpath dst_assets fname in
      if path_exists d src && negb (path_exists d dst) then
        match copy2 src dst d with
        | (d', None) => copy_loop src_assets dst_assets rest d' out
        | (d', Some e) =>
            copy_loop src_assets dst_assets rest d'
              (out ++ [py "[WARN] Impossible de copier " ++ fname ++ py ": " ++ e])
        end
      else copy_loop src_assets dst_assets rest d out
  end.

(** [_ensure_vad_assets].  [meipass] is [sys._MEIPASS] when the
    attribute exists, [here] the directory of the module file, [home]
    the home directory.  The result is the disk, the lines printed and
    the exception that escaped, if any ([mkdir] is not guarded). *)
Definition src_assets (meipass : option pystr) (here : pystr) : pystr :=
  match meipass with
  | Some m => joinpath m (py "assets")
  | None => joinpath here (py "assets")
  end.

Definition dst_assets (home : pystr) : pystr :=
  joinpath (joinpath (joinpath home (py ".cache")) (py "faster-whisper"))
           (py "assets").

Definition _ensure_vad_assets (meipass : option pystr) (here home : pystr)
    (d : Disk) : Disk * list pystr * option pystr :=
  match mkdir_p (dst_assets home) d with
  | (d', Some e) => (d', [], Some e)
  | (d', None) =>
      (copy_loop (src_assets meipass here) (dst_assets home) asset_names d' [], None)
  end.

End OS.

(** A small disk for examples: the paths that exist.  Copying fails on
    a source named in [locked]. *)
Definition toy_exists (d : list pystr) (p : pystr) : bool :=
  existsb (pystr_eqb p) d.
Definition toy_mkdir (p : pystr) (d : list pystr) : list pystr * option pystr :=
  (p :: d, None).
Definition toy_copy2 (locked : list pystr) (src dst : pystr) (d : list pystr)
  : list pystr * option pystr :=
  if existsb (pystr_eqb src) locked then (d, Some (py "Permission denied"))
  else (dst :: d, None).
Definition toy_join (a b : pystr) : pystr := a ++ py "/" ++ b.

End Assets.

(* ------------------------------------------------------------------ *)
(** ** The worker: shape of a run *)

Section WorkerFacts.
Local Open Scope float_scope.

Lemma or_1_nonzero (d : option float) : PrimFloat.eqb (or_1 d) 0 = false.
Proof.
  destruct d as [x|]; simpl; [|reflexivity].
  destruct (PrimFloat.eqb x 0) eqn:E; [reflexivity | exact E].
Qed.

Lemma or_1_falsy (d : option float) : falsy d = true -> or_1 d = 1.
Proof.
  destruct d as [x|]; simpl; [|reflexivity].
  intros ->. reflexivity.
Qed.

Lemma yielded_yields segments : yielded (yields segments) = segments.
Proof. induction segments as [|seg rest IH]; simpl; [reflexivity | now rewrite IH]. Qed.

Lemma breaks_yields segments : breaks (yields segments) = None.
Proof. induction segments as [|seg rest IH]; simpl; [reflexivity | exact IH]. Qed.

(** With a divisor that is not zero the loop posts [loop_events] for the
    segments the generator yields, behind what the queue held; it then
    returns the totals, or dies of the generator's exception. *)
Lemma for_segments_runs (d : float) (g : Segments) :
  PrimFloat.eqb d 0 = false ->
  forall done text q0,
  exists done',
    for_segments d g done text q0
    = (match breaks g with
       | None => Returned (done', text ++ lines (yielded g))
       | Some e => Uncaught e
       end,
       q0 ++ loop_events d (yielded g) done).
Proof.
  intros Hd. induction g as [|seg rest IH|e]; intros done text q0.
  - exists done. unfold lines. simpl. now rewrite !app_nil_r.
  - destruct (IH (done + (seg_end seg - seg_start seg)) (text ++ (seg_text seg ++ LF))
                 ((q0 ++ [Progress (py_min ((done + (seg_end seg - seg_start seg)) / d) 1)])
                    ++ [Text (seg_text seg)])) as [done' E].
    exists done'.
    cbn [for_segments]. unfold bind at 1. unfold divide, truediv. rewrite Hd.
    unfold bind at 1. unfold put at 1. unfold bind at 1. unfold put at 1.
    rewrite E. unfold lines. cbn [map List.concat loop_events yielded breaks].
    now rewrite <- !app_assoc.
  - exists done. simpl. unfold propagate. now rewrite app_nil_r.
Qed.

(** The ways a run can go. *)
Lemma worker_load_error WhisperModel a m l e q0 :
  WhisperModel m = Raise e ->
  worker_transcribe WhisperModel a m l q0
  = (Returned tt, q0 ++ [Error (py "Erreur chargement modèle : " ++ e)]).
Proof. intros H. unfold worker_transcribe. now rewrite H. Qed.

Lemma worker_transcribe_error WhisperModel a m l mdl e q0 :
  WhisperModel m = Ok mdl -> mdl a l = Raise e ->
  worker_transcribe WhisperModel a m l q0
  = (Returned tt, q0 ++ [Error (py "Erreur transcription : " ++ e)]).
Proof. intros H1 H2. unfold worker_transcribe. now rewrite H1, H2. Qed.

Lemma worker_generator WhisperModel a m l mdl g info q0 :
  WhisperModel m = Ok mdl -> mdl a l = Ok (g, info) ->
  worker_transcribe WhisperModel a m l q0
  = match breaks g with
    | None =>
        (Returned tt,
         q0 ++ loop_events (or_1 (duration info)) (yielded g) 0
            ++ [Done (lines (yielded g))])
    | Some e => (Uncaught e, q0 ++ loop_events (or_1 (duration info)) (yielded g) 0)
    end.
Proof.
  intros H1 H2. unfold worker_transcribe. rewrite H1, H2.
  destruct (for_segments_runs (or_1 (duration info)) g
              (or_1_nonzero (duration info)) 0 [] q0) as [done' E].
  unfold bind. rewrite E. destruct (breaks g); [reflexivity|].
  unfold put. cbn [snd app]. now rewrite <- app_assoc.
Qed.

Lemma worker_success WhisperModel a m l mdl segments info q0 :
  WhisperModel m = Ok mdl -> mdl a l = Ok (yields segments, info) ->
  worker_transcribe WhisperModel a m l q0
  = (Returned tt,
     q0 ++ loop_events (or_1 (duration info)) segments 0 ++ [Done (lines segments)]).
Proof.
  intros H1 H2. rewrite (worker_generator _ _ _ _ _ _ _ _ H1 H2).
  now rewrite breaks_yields, yielded_yields.
Qed.

(** A run's messages land behind whatever the queue held, and how the
    thread ends does not depend on it. *)
Lemma worker_appends WhisperModel a m l q0 :
  snd (worker_transcribe WhisperModel a m l q0) = q0 ++ emitted WhisperModel a m l
  /\ fst (worker_transcribe WhisperModel a m l q0)
     = fst (worker_transcribe WhisperModel a m l []).
Proof.
  unfold emitted.
  destruct (WhisperModel m) as [mdl|e] eqn:H1;
    [destruct (mdl a l) as [[g info]|e] eqn:H2|].
  - rewrite !(worker_generator _ _ _ _ _ _ _ _ H1 H2). now destruct (breaks g).
  - now rewrite !(worker_transcribe_error _ _ _ _ _ _ _ H1 H2).
  - now rewrite !(worker_load_error _ _ _ _ _ _ H1).
Qed.

Lemma loop_events_shape d segments done tail :
  run_shape tail -> run_shape (loop_events d segments done ++ tail).
Proof.
  intros Ht. revert done.
  induction segments as [|seg rest IH]; intros done; simpl; [exact Ht|].
  apply run_pair. apply IH.
Qed.

Lemma loop_events_no_terminal d segments done :
  existsb is_terminal (loop_events d segments done) = false.
Proof.
  revert done. induction segments as [|seg rest IH]; intros done; simpl; auto.
Qed.

(** As long as the generator does not raise, a run is a possibly empty
    run of Progress/Text pairs closed by one terminal message. *)
Lemma run_shape_unless_generator_raises WhisperModel a m l q0 :
  match WhisperModel m with
  | Ok mdl => match mdl a l with
              | Ok (g, _) => breaks g = None
              | Raise _ => True
              end
  | Raise _ => True
  end ->
  exists evs,
    worker_transcribe WhisperModel a m l q0 = (Returned tt, q0 ++ evs)
    /\ run_shape evs.
Proof.
  destruct (WhisperModel m) as [mdl|e] eqn:H1;
    [destruct (mdl a l) as [[g info]|e] eqn:H2|]; intros Hg.
  - rewrite (worker_generator _ _ _ _ _ _ _ _ H1 H2), Hg.
    eexists. split; [reflexivity|]. apply loop_events_shape. now apply run_end.
  - rewrite (worker_transcribe_error _ _ _ _ _ _ _ H1 H2).
    eexists. split; [reflexivity|]. now apply run_end.
  - rewrite (worker_load_error _ _ _ _ _ _ H1).
    eexists. split; [reflexivity|]. now apply run_end.
Qed.

End WorkerFacts.

(** A list of that shape has its only terminal message in last place. *)
Lemma run_shape_one_terminal evs :
  run_shape evs ->
  exists body e,
    evs = body ++ [e] /\ is_terminal e = true
    /\ forallb (fun x => negb (is_terminal x)) body = true.
Proof.
  induction 1 as [e He|p t rest _ (body & e & -> & He & Hb)].
  - exists [], e. auto.
  - exists (Progress p :: Text t :: body), e. simpl. auto.
Qed.

(** C1. The claim does not hold of the code: the loop over the
    generator stands outside both [try] blocks.  When the generator
    yields one segment and then raises, the worker posts one
    Progress/Text pair and the thread dies: no Done and no Error is ever
    posted, and the messages do not have the claimed shape. *)
Theorem generator_failure_leaves_no_terminal :
  worker_transcribe failing_decoder (py "a.wav") (py "base") (py "fr") []
  = (Uncaught (py "decoding failed"), [Progress 0.5%float; Text (py "Hello ")])
  /\ existsb is_terminal (emitted failing_decoder (py "a.wav") (py "base") (py "fr"))
     = false
  /\ ~ run_shape (emitted failing_decoder (py "a.wav") (py "base") (py "fr")).
Proof.
  split; [reflexivity|]. split; [reflexivity|].
  intros H. apply run_shape_one_terminal in H.
  destruct H as (body & e & E & He & _).
  assert (Hex : existsb is_terminal (body ++ [e]) = true).
  { rewrite existsb_app. cbn. rewrite He. now rewrite orb_true_r. }
  rewrite <- E in Hex. discriminate Hex.
Qed.

(* ------------------------------------------------------------------ *)
(** ** The worker: text *)

Lemma text_payloads_app evs1 evs2 :
  text_payloads (evs1 ++ evs2) = text_payloads evs1 ++ text_payloads evs2.
Proof.
  induction evs1 as [|[p|t|f|e] evs1 IH]; simpl; rewrite ?IH; reflexivity.
Qed.

Lemma progress_payloads_app evs1 evs2 :
  progress_payloads (evs1 ++ evs2) = progress_payloads evs1 ++ progress_payloads evs2.
Proof.
  induction evs1 as [|[p|t|f|e] evs1 IH]; simpl; rewrite ?IH; reflexivity.
Qed.

Lemma loop_events_texts d segments done :
  text_payloads (loop_events d segments done) = map seg_text segments.
Proof.
  revert done. induction segments as [|seg rest IH]; intros done; simpl;
    [reflexivity | now rewrite IH].
Qed.

Lemma lines_of_texts segments :
  lines segments = List.concat (map (fun t => t ++ LF) (map seg_text segments)).
Proof. unfold lines. now rewrite map_map. Qed.

Lemma loop_events_no_done d segments done :
  last_done (loop_events d segments done) = None.
Proof.
  revert done. induction segments as [|seg rest IH]; intros done; simpl;
    [reflexivity | now rewrite IH].
Qed.

Lemma last_done_app_done evs p : last_done (evs ++ [Done p]) = Some p.
Proof.
  induction evs as [|e evs IH]; simpl; [reflexivity | now rewrite IH].
Qed.

(** C2, as stated, fails: with the single segment "a" the only chunk is
    "a" while the Done payload is "a" followed by a line break. *)
Lemma chunks_concat_differs_from_done :
  ~ (forall WhisperModel a m l body p,
        emitted WhisperModel a m l = body ++ [Done p] ->
        List.concat (text_payloads body) = p).
Proof.
  intros H.
  specialize (H (engine_of [mkSegment 0 1 (py "a")] (mkInfo (Some 1%float))) [] [] []
                [Progress (py_min ((0 + (1 - 0)) / 1) 1)%float; Text (py "a")]
                (py "a" ++ LF) eq_refl).
  vm_compute in H. discriminate H.
Qed.

(** C2, amended. In a run that ends in Done, the Done payload is the
    concatenation, in emission order, of the Text payloads each followed
    by a line break. *)
Theorem done_is_chunks_with_line_breaks WhisperModel a m l body p :
  emitted WhisperModel a m l = body ++ [Done p] ->
  p = List.concat (map (fun t => t ++ LF) (text_payloads body)).
Proof.
  unfold emitted. intros E.
  destruct (WhisperModel m) as [mdl|e] eqn:H1;
    [destruct (mdl a l) as [[g info]|e] eqn:H2|].
  - rewrite (worker_generator _ _ _ _ _ _ _ _ H1 H2) in E.
    destruct (breaks g) as [e|]; cbn [snd app] in E.
    + exfalso. apply (f_equal last_done) in E.
      rewrite loop_events_no_done, last_done_app_done in E. discriminate E.
    + apply app_inj_tail in E. destruct E as [<- E]. inversion E.
      rewrite loop_events_texts. apply lines_of_texts.
  - rewrite (worker_transcribe_error _ _ _ _ _ _ _ H1 H2) in E. cbn [snd app] in E.
    apply (f_equal last_done) in E. rewrite last_done_app_done in E. discriminate E.
  - rewrite (worker_load_error _ _ _ _ _ _ H1) in E. cbn [snd app] in E.
    apply (f_equal last_done) in E. rewrite last_done_app_done in E. discriminate E.
Qed.

Lemma done_is_chunks_with_line_breaks_witness :
  emitted sample_engine (py "a.wav") (py "base") (py "en")
  = [Progress (py_min ((0 + (1.2 - 0)) / 2.5) 1)%float; Text (py "Hello ");
     Progress 1%float; Text (py "world.")]
    ++ [Done (py "Hello " ++ LF ++ py "world." ++ LF)]
  /\ py "Hello " ++ LF ++ py "world." ++ LF
     = List.concat (map (fun t => t ++ LF) [py "Hello "; py "world."]).
Proof.
  split; [reflexivity|].
  apply (done_is_chunks_with_line_breaks sample_engine
           (py "a.wav") (py "base") (py "en")
           [Progress (py_min ((0 + (1.2 - 0)) / 2.5) 1)%float; Text (py "Hello ");
            Progress 1%float; Text (py "world.")]).
  reflexivity.
Defined.

(** C10. When the engine yields no segment the run is the single
    message Done with the empty string: no Progress, no Text. *)
Theorem empty_sequence_only_done WhisperModel a m l mdl info q0 :
  WhisperModel m = Ok mdl ->
  mdl a l = Ok (yields [], info) ->
  worker_transcribe WhisperModel a m l q0 = (Returned tt, q0 ++ [Done []])
  /\ emitted WhisperModel a m l = [Done []].
Proof.
  intros H1 H2. unfold emitted.
  rewrite !(worker_success _ _ _ _ _ _ _ _ H1 H2). split; reflexivity.
Qed.

Lemma empty_sequence_only_done_witness :
  emitted (engine_of [] (mkInfo None)) (py "a.wav") (py "tiny") (py "fr") = [Done []].
Proof.
  apply (empty_sequence_only_done (engine_of [] (mkInfo None)) (py "a.wav")
           (py "tiny") (py "fr") (fun _ _ => Ok (yields [], mkInfo None)) (mkInfo None) []
           eq_refl eq_refl).
Defined.

(* ------------------------------------------------------------------ *)
(** ** The worker: progress *)

Section Progress.
Local Open Scope float_scope.





(** C9. The worker never divides by zero: the divisor [duration or 1]
    never compares equal to zero, so the division never raises and the
    thread never dies of [ZeroDivisionError]; and when the engine reports
    no duration or a zero one, the run is the run of the loop with
    divisor 1. *)
Theorem no_division_by_zero WhisperModel a m l q0 :
  (forall x d, truediv x (or_1 d) = Some (x / or_1 d))
  /\ fst (worker_transcribe WhisperModel a m l q0) <> Uncaught_ZeroDivisionError
  /\ (forall mdl segments info,
        WhisperModel m = Ok mdl ->
        mdl a l = Ok (yields segments, info) ->
        fst (worker_transcribe WhisperModel a m l q0) = Returned tt)
  /\ (forall mdl g info,
        WhisperModel m = Ok mdl ->
        mdl a l = Ok (g, info) ->
        falsy (duration info) = true ->
        or_1 (duration info) = 1
        /\ worker_transcribe WhisperModel a m l q0
           = bind (for_segments 1 g 0 []) (fun r => put (Done (snd r))) q0).
Proof.
  split; [|split; [|split]].
  - intros x d. unfold truediv. now rewrite or_1_nonzero.
  - destruct (WhisperModel m) as [mdl|e] eqn:H1;
      [destruct (mdl a l) as [[g info]|e] eqn:H2|].
    + rewrite (worker_generator _ _ _ _ _ _ _ _ H1 H2).
      destruct (breaks g); discriminate.
    + rewrite (worker_transcribe_error _ _ _ _ _ _ _ H1 H2). discriminate.
    + rewrite (worker_load_error _ _ _ _ _ _ H1). discriminate.
  - intros mdl sg info H1 H2. now rewrite (worker_success _ _ _ _ _ _ _ _ H1 H2).
  - intros mdl g info H1 H2 Hf.
    split; [now apply or_1_falsy|].
    unfold worker_transcribe. rewrite H1, H2.
    now rewrite (or_1_falsy _ Hf).
Qed.

Lemma no_division_by_zero_witness :
  falsy (Some 0) = true
  /\ worker_transcribe (engine_of hello_world (mkInfo (Some 0)))
       (py "a.wav") (py "base") (py "en") []
     = (Returned tt,
        [Progress 1; Text (py "Hello "); Progress 1; Text (py "world.");
         Done (py "Hello " ++ LF ++ py "world." ++ LF)]).
Proof.
  split; [reflexivity|].
  destruct (no_division_by_zero (engine_of hello_world (mkInfo (Some 0)))
              (py "a.wav") (py "base") (py "en") []) as (_ & _ & _ & H).
  destruct (H (fun _ _ => Ok (yields hello_world, mkInfo (Some 0))) (yields hello_world)
              (mkInfo (Some 0)) eq_refl eq_refl eq_refl) as [_ E].
  rewrite E. reflexivity.
Defined.

End Progress.

(* ------------------------------------------------------------------ *)
(** ** The codec: decoding undoes encoding *)

Section Codec.
Local Open Scope Z_scope.

Lemma utf8_decode_cons b0 r0 :
  utf8_decode (b0 :: r0) =
  if (0 <=? b0) && (b0 <? 0x80) then option_map (cons b0) (utf8_decode r0)
  else if (0xC2 <=? b0) && (b0 <? 0xE0) then
    match r0 with
    | b1 :: r1 =>
        if is_cont b1
        then option_map (cons ((b0 - 0xC0) * 64 + (b1 - 0x80))) (utf8_decode r1)
        else None
    | _ => None
    end
  else if (0xE0 <=? b0) && (b0 <? 0xF0) then
    match r0 with
    | b1 :: b2 :: r2 =>
        let c := ((b0 - 0xE0) * 64 + (b1 - 0x80)) * 64 + (b2 - 0x80) in
        if is_cont b1 && is_cont b2 && (0x800 <=? c) && negb (is_surrogate c)
        then option_map (cons c) (utf8_decode r2)
        else None
    | _ => None
    end
  else if (0xF0 <=? b0) && (b0 <? 0xF5) then
    match r0 with
    | b1 :: b2 :: b3 :: r3 =>
        let c := (((b0 - 0xF0) * 64 + (b1 - 0x80)) * 64 + (b2 - 0x80)) * 64
                 + (b3 - 0x80) in
        if is_cont b1 && is_cont b2 && is_cont b3
           && (0x10000 <=? c) && (c <? 0x110000)
        then option_map (cons c) (utf8_decode r3)
        else None
    | _ => None
    end
  else None.
Proof. reflexivity. Qed.

Ltac to_props H :=
  unfold is_cont, is_surrogate in H;
  repeat first
    [ rewrite andb_true_iff in H | rewrite andb_false_iff in H
    | rewrite negb_true_iff in H | rewrite negb_false_iff in H
    | rewrite Z.leb_le in H | rewrite Z.ltb_lt in H
    | rewrite Z.leb_gt in H | rewrite Z.ltb_ge in H ].

Ltac split_cond :=
  match goal with
  | |- context [if ?b then _ else _] =>
      let E := fresh "E" in destruct b eqn:E; to_props E
  end.

Lemma decode_1 b0 rest :
  0 <= b0 < 0x80 ->
  utf8_decode (b0 :: rest) = option_map (cons b0) (utf8_decode rest).
Proof.
  intros H. rewrite utf8_decode_cons.
  split_cond; [reflexivity | exfalso; lia].
Qed.

Lemma decode_2 b0 b1 rest :
  0xC2 <= b0 < 0xE0 -> 0x80 <= b1 < 0xC0 ->
  utf8_decode (b0 :: b1 :: rest)
  = option_map (cons ((b0 - 0xC0) * 64 + (b1 - 0x80))) (utf8_decode rest).
Proof.
  intros H0 H1. rewrite utf8_decode_cons.
  repeat split_cond; try reflexivity; exfalso; lia.
Qed.

Lemma decode_3 b0 b1 b2 rest :
  0xE0 <= b0 < 0xF0 -> 0x80 <= b1 < 0xC0 -> 0x80 <= b2 < 0xC0 ->
  0x800 <= ((b0 - 0xE0) * 64 + (b1 - 0x80)) * 64 + (b2 - 0x80) ->
  is_surrogate (((b0 - 0xE0) * 64 + (b1 - 0x80)) * 64 + (b2 - 0x80)) = false ->
  utf8_decode (b0 :: b1 :: b2 :: rest)
  = option_map (cons (((b0 - 0xE0) * 64 + (b1 - 0x80)) * 64 + (b2 - 0x80)))
               (utf8_decode rest).
Proof.
  intros H0 H1 H2 Hc Hs. rewrite utf8_decode_cons. cbv zeta. rewrite Hs.
  repeat split_cond; try reflexivity; exfalso; lia.
Qed.

Lemma decode_4 b0 b1 b2 b3 rest :
  0xF0 <= b0 < 0xF5 -> 0x80 <= b1 < 0xC0 -> 0x80 <= b2 < 0xC0 ->
  0x80 <= b3 < 0xC0 ->
  0x10000 <= (((b0 - 0xF0) * 64 + (b1 - 0x80)) * 64 + (b2 - 0x80)) * 64
             + (b3 - 0x80) < 0x110000 ->
  utf8_decode (b0 :: b1 :: b2 :: b3 :: rest)
  = option_map (cons ((((b0 - 0xF0) * 64 + (b1 - 0x80)) * 64 + (b2 - 0x80)) * 64
                      + (b3 - 0x80)))
               (utf8_decode rest).
Proof.
  intros H0 H1 H2 H3 Hc. rewrite utf8_decode_cons. cbv zeta.
  repeat split_cond; try reflexivity; exfalso; lia.
Qed.

Ltac euclid := Z.to_euclidean_division_equations; lia.

Lemma some_inj (A : Type) (x y : A) : Some x = Some y -> x = y.
Proof. congruence. Qed.

(** One code point: what was encoded is read back, and decoding then
    goes on with the rest. *)
Lemma decode_encode_cp c bs rest :
  encode_cp c = Some bs ->
  utf8_decode (bs ++ rest) = option_map (cons c) (utf8_decode rest).
Proof.
  unfold encode_cp.
  destruct (Z.ltb_spec c 0) as [|H0]; [discriminate|].
  destruct (Z.ltb_spec c 0x80) as [H1|H1].
  { intros E; apply some_inj in E; subst bs. apply decode_1. lia. }
  destruct (Z.ltb_spec c 0x800) as [H2|H2].
  { intros E; apply some_inj in E; subst bs.
    change ([192 + c / 64; 128 + c mod 64] ++ rest)
      with ((192 + c / 64) :: (128 + c mod 64) :: rest).
    rewrite decode_2 by euclid.
    do 2 f_equal. euclid. }
  destruct (Z.ltb_spec c 0x10000) as [H3|H3].
  { destruct (is_surrogate c) eqn:Hs; [discriminate|].
    intros E; apply some_inj in E; subst bs.
    change ([224 + c / 4096; 128 + (c / 64) mod 64; 128 + c mod 64] ++ rest)
      with ((224 + c / 4096) :: (128 + (c / 64) mod 64) :: (128 + c mod 64) :: rest).
    assert (Hc : ((224 + c / 4096 - 224) * 64 + (128 + (c / 64) mod 64 - 128)) * 64
                 + (128 + c mod 64 - 128) = c) by euclid.
    rewrite decode_3; rewrite ?Hc; try assumption; try euclid.
    reflexivity. }
  destruct (Z.ltb_spec c 0x110000) as [H4|H4]; [|discriminate].
  intros E; apply some_inj in E; subst bs.
  change ([240 + c / 262144; 128 + (c / 4096) mod 64; 128 + (c / 64) mod 64;
           128 + c mod 64] ++ rest)
    with ((240 + c / 262144) :: (128 + (c / 4096) mod 64)
            :: (128 + (c / 64) mod 64) :: (128 + c mod 64) :: rest).
  assert (Hc : (((240 + c / 262144 - 240) * 64 + (128 + (c / 4096) mod 64 - 128)) * 64
                + (128 + (c / 64) mod 64 - 128)) * 64
               + (128 + c mod 64 - 128) = c) by euclid.
  rewrite decode_4; rewrite ?Hc; try euclid.
  reflexivity.
Qed.

(** Decoding the encoding of a text gives the text back. *)
Lemma utf8_round_trip s :
  forall bs, utf8_encode s = Some bs -> utf8_decode bs = Some s.
Proof.
  induction s as [|c s IH]; intros bs; simpl.
  - now intros [= <-].
  - destruct (encode_cp c) as [b1|] eqn:Ec; [|discriminate].
    destruct (utf8_encode s) as [b2|] eqn:Es; [|discriminate].
    intros [= <-].
    rewrite (decode_encode_cp c b1 b2 Ec), (IH _ eq_refl). reflexivity.
Qed.

End Codec.

(* ------------------------------------------------------------------ *)
(** ** Text mode: reading undoes the translation of line breaks *)

Section Newlines.
Local Open Scope Z_scope.

(** A text without carriage return is read back as it was written,
    whatever the platform's line separator. *)
Lemma universal_undoes_translate pf s :
  ~ In 13 s ->
  universal_newlines (translate_newlines (linesep pf) s) = s.
Proof.
  induction s as [|c s IH]; intros Hcr; [reflexivity|].
  assert (Hc : c <> 13) by (intros ->; apply Hcr; now left).
  assert (Hs : ~ In 13 s) by (intros H; apply Hcr; now right).
  cbn [translate_newlines]. destruct (Z.eqb_spec c 10) as [->|Hlf].
  - specialize (IH Hs).
    remember (translate_newlines (linesep pf) s) as t eqn:Et. clear Et.
    destruct pf; cbn; now rewrite IH.
  - cbn [universal_newlines]. destruct (Z.eqb_spec c 13) as [E|_]; [contradiction|].
    now rewrite (IH Hs).
Qed.

(** On a platform whose separator is the line feed nothing is
    translated on writing. *)
Lemma translate_posix s : translate_newlines (linesep posix) s = s.
Proof.
  induction s as [|c s IH]; [reflexivity|]. cbn [translate_newlines].
  destruct (Z.eqb_spec c 10) as [->|_]; rewrite IH; reflexivity.
Qed.

End Newlines.

(* ------------------------------------------------------------------ *)
(** ** The poll loop *)

Section Poll.

Lemma drain_txt evs : forall s,
  txt (drain evs s) = txt s ++ List.concat (text_payloads evs).
Proof.
  induction evs as [|[p|t|f|e] evs IH]; intros s; simpl; rewrite ?IH; simpl;
    rewrite ?app_nil_r, ?app_assoc; reflexivity.
Qed.

Lemma drain_full_text evs : forall s,
  full_text (drain evs s)
  = match last_done evs with Some p => Some p | None => full_text s end.
Proof.
  induction evs as [|[p|t|f|e] evs IH]; intros s; simpl; rewrite ?IH; simpl;
    try reflexivity; destruct (last_done evs); reflexivity.
Qed.

Lemma drain_btn_start evs : forall s,
  btn_start (drain evs s) = if existsb is_error evs then normal else btn_start s.
Proof.
  induction evs as [|[p|t|f|e] evs IH]; intros s; simpl; rewrite ?IH; simpl;
    try reflexivity; destruct (existsb is_error evs); reflexivity.
Qed.

Lemma drain_btn_save evs : forall s,
  btn_save (drain evs s) = if existsb is_done evs then normal else btn_save s.
Proof.
  induction evs as [|[p|t|f|e] evs IH]; intros s; simpl; rewrite ?IH; simpl;
    try reflexivity; destruct (existsb is_done evs); reflexivity.
Qed.

Lemma drain_dialogs evs : forall s,
  dialogs (drain evs s) = dialogs s ++ notices evs.
Proof.
  induction evs as [|[p|t|f|e] evs IH]; intros s; simpl; rewrite ?IH; simpl;
    rewrite ?app_nil_r, <- ?app_assoc; reflexivity.
Qed.

Lemma drain_threads evs : forall s, threads (drain evs s) = threads s.
Proof.
  induction evs as [|[p|t|f|e] evs IH]; intros s; simpl; rewrite ?IH; reflexivity.
Qed.

Lemma poll_queue_empties s : q (poll_queue s) = [].
Proof.
  unfold poll_queue.
  assert (H : forall evs s', q s' = evs -> q (drain evs s') = []).
  { induction evs as [|e evs IH]; intros s' Hq; simpl; [exact Hq|].
    apply IH. destruct e; reflexivity. }
  now apply H.
Qed.

Lemma last_done_is_done evs :
  forall p, last_done evs = Some p -> existsb is_done evs = true.
Proof.
  induction evs as [|e evs IH]; intros p; simpl; [discriminate|].
  destruct (last_done evs) as [p'|].
  - intros _. rewrite (IH p' eq_refl). apply orb_true_r.
  - destruct e; try discriminate. reflexivity.
Qed.

Lemma loop_events_no_error d segments done :
  existsb is_error (loop_events d segments done) = false.
Proof.
  revert done. induction segments as [|seg rest IH]; intros done; simpl; auto.
Qed.

End Poll.

(* ------------------------------------------------------------------ *)
(** ** Starting a run *)

Section Start.

Lemma pystr_eqb_refl s : pystr_eqb s s = true.
Proof. induction s as [|c s IH]; simpl; [reflexivity|]. now rewrite Z.eqb_refl. Qed.

(** The state a successful Start leaves. *)
Lemma start_transcription_ok fs s model lang :
  isfile fs (entry_file s) = true ->
  getitem MODELS (combo_model s) = Some model ->
  getitem LANGS (combo_lang s) = Some lang ->
  start_transcription fs s
  = mkApp (combo_model s) (combo_lang s) (entry_file s) 0%float [] disabled disabled
          (full_text s) []
          (threads s ++ [mkRequest (entry_file s) model lang]) (dialogs s).
Proof.
  intros Hf Hm Hl. unfold start_transcription. rewrite Hf.
  cbn [negb combo_model combo_lang set_txt set_progress set_btn_start set_btn_save].
  rewrite Hm, Hl. reflexivity.
Qed.

(** C7. When the path field does not name an existing file, Start only
    shows the error dialog: no thread is started and the queue is left
    as it was. *)
Theorem start_with_missing_file fs s :
  isfile fs (entry_file s) = false ->
  start_transcription fs s = show (showerror (py "Erreur") (py "Fichier invalide.")) s
  /\ threads (start_transcription fs s) = threads s
  /\ q (start_transcription fs s) = q s
  /\ dialogs (start_transcription fs s)
     = dialogs s ++ [showerror (py "Erreur") (py "Fichier invalide.")].
Proof.
  intros Hf. unfold start_transcription. rewrite Hf. simpl. auto.
Qed.

Lemma start_with_missing_file_witness :
  isfile sample_fs (entry_file (browse_file (py "missing.wav") init)) = false
  /\ threads (start_transcription sample_fs (browse_file (py "missing.wav") init)) = []
  /\ q (start_transcription sample_fs (browse_file (py "missing.wav") init)) = [].
Proof.
  split; [reflexivity|].
  destruct (start_with_missing_file sample_fs (browse_file (py "missing.wav") init)
              eq_refl) as (_ & Ht & Hq & _).
  split; [exact Ht | exact Hq].
Defined.

End Start.

(* ------------------------------------------------------------------ *)
(** ** A whole run seen from the window *)

Section Runs.

(** The window after Start, a run of the thread and one poll, when the
    engine answers with [segments]. *)
Lemma poll_after_successful_run WhisperModel fs s model lang mdl segments info :
  isfile fs (entry_file s) = true ->
  getitem MODELS (combo_model s) = Some model ->
  getitem LANGS (combo_lang s) = Some lang ->
  WhisperModel model = Ok mdl ->
  mdl (entry_file s) lang = Ok (yields segments, info) ->
  poll_queue
    (run_thread WhisperModel (mkRequest (entry_file s) model lang)
       (start_transcription fs s))
  = drain (loop_events (or_1 (duration info)) segments 0 ++ [Done (lines segments)])
      (start_transcription fs s).
Proof.
  intros Hf Hm Hl H1 H2.
  rewrite (start_transcription_ok fs s model lang Hf Hm Hl).
  unfold poll_queue, run_thread. cbn [audio_path model_size lang_code q].
  rewrite (worker_success _ _ _ _ _ _ _ _ H1 H2). cbn [snd app q set_q].
  set (evs := loop_events _ _ _ ++ _).
  destruct evs as [|e evs']; reflexivity.
Qed.

(** After a run that ends in Done, polling leaves Start as it was. *)
Lemma done_run_leaves_start WhisperModel fs s model lang mdl segments info :
  isfile fs (entry_file s) = true ->
  getitem MODELS (combo_model s) = Some model ->
  getitem LANGS (combo_lang s) = Some lang ->
  WhisperModel model = Ok mdl ->
  mdl (entry_file s) lang = Ok (yields segments, info) ->
  btn_start
    (poll_queue
       (run_thread WhisperModel (mkRequest (entry_file s) model lang)
          (start_transcription fs s)))
  = disabled.
Proof.
  intros Hf Hm Hl H1 H2.
  rewrite (poll_after_successful_run WhisperModel fs s model lang mdl segments info
             Hf Hm Hl H1 H2).
  rewrite drain_btn_start, existsb_app, loop_events_no_error.
  rewrite (start_transcription_ok fs s model lang Hf Hm Hl). reflexivity.
Qed.

(** C4. On the sample run (file chosen, Start clicked, the engine
    answers, the queue is polled) the Done message enables Save but
    leaves Start disabled, so a click on Start does nothing: only the
    Error branch of the poll loop re-enables Start. *)
Theorem start_stays_disabled_after_done :
  last_done
    (q (run_thread sample_engine sample_request
          (click_start sample_fs (browse_file (py "a.wav") init))))
  = Some (py "Hello " ++ LF ++ py "world." ++ LF)
  /\ btn_save after_first_run = normal
  /\ btn_start after_first_run = disabled
  /\ click_start sample_fs after_first_run = after_first_run.
Proof. repeat split; reflexivity. Qed.

(** C5, as stated, fails: after the first sample run, choosing the file
    again and clicking Start starts a second thread while the buffer
    still holds the first run's text. *)
Lemma buffer_kept_at_second_start :
  threads (click_start sample_fs (browse_file (py "a.wav") after_first_run))
  = [sample_request; sample_request]
  /\ full_text after_first_run = Some (py "Hello " ++ LF ++ py "world." ++ LF)
  /\ full_text (click_start sample_fs (browse_file (py "a.wav") after_first_run))
     = Some (py "Hello " ++ LF ++ py "world." ++ LF)
  /\ full_text (click_start sample_fs (browse_file (py "a.wav") after_first_run))
     <> Some [].
Proof. repeat split; try reflexivity. discriminate. Qed.

(** C5, amended. Start clears the displayed text, empties the queue and
    disables Save, and leaves the buffer as it was; the buffer is
    overwritten when the run's Done message is polled. After that poll
    the buffer is the new run's Done payload and the displayed text is
    the new run's chunks, whatever the window held before. *)
Theorem buffer_overwritten_on_done WhisperModel fs s model lang mdl segments info :
  isfile fs (entry_file s) = true ->
  getitem MODELS (combo_model s) = Some model ->
  getitem LANGS (combo_lang s) = Some lang ->
  WhisperModel model = Ok mdl ->
  mdl (entry_file s) lang = Ok (yields segments, info) ->
  let s1 := start_transcription fs s in
  let s2 := poll_queue
              (run_thread WhisperModel (mkRequest (entry_file s) model lang) s1) in
  txt s1 = [] /\ q s1 = [] /\ btn_save s1 = disabled
  /\ full_text s1 = full_text s
  /\ full_text s2 = Some (lines segments)
  /\ txt s2 = List.concat (map seg_text segments).
Proof.
  intros Hf Hm Hl H1 H2 s1 s2. subst s1 s2.
  rewrite (poll_after_successful_run WhisperModel fs s model lang mdl segments info
             Hf Hm Hl H1 H2).
  rewrite drain_full_text, drain_txt, last_done_app_done.
  rewrite text_payloads_app, loop_events_texts. cbn [text_payloads].
  rewrite app_nil_r.
  rewrite (start_transcription_ok fs s model lang Hf Hm Hl). cbn.
  repeat split; reflexivity.
Qed.

Lemma buffer_overwritten_on_done_witness :
  full_text (browse_file (py "a.wav") after_first_run)
  = Some (py "Hello " ++ LF ++ py "world." ++ LF)
  /\ full_text
       (poll_queue
          (run_thread (engine_of [mkSegment 0 1 (py "Bis")] (mkInfo None))
             sample_request
             (start_transcription sample_fs (browse_file (py "a.wav") after_first_run))))
     = Some (py "Bis" ++ LF)
  /\ txt
       (poll_queue
          (run_thread (engine_of [mkSegment 0 1 (py "Bis")] (mkInfo None))
             sample_request
             (start_transcription sample_fs (browse_file (py "a.wav") after_first_run))))
     = py "Bis".
Proof.
  split; [reflexivity|].
  destruct (buffer_overwritten_on_done
              (engine_of [mkSegment 0 1 (py "Bis")] (mkInfo None)) sample_fs
              (browse_file (py "a.wav") after_first_run)
              (py "large-v3") (py "fr")
              (fun _ _ => Ok (yields [mkSegment 0 1 (py "Bis")], mkInfo None))
              [mkSegment 0 1 (py "Bis")] (mkInfo None)
              eq_refl eq_refl eq_refl eq_refl eq_refl)
    as (_ & _ & _ & _ & Hb & Ht).
  split; [exact Hb | exact Ht].
Defined.

(** C6, as stated, fails on one character: the message of the source
    has a no-break space (U+00A0) before the colon, not a space. *)
Lemma load_error_payload_has_no_break_space :
  emitted (broken_loader (py "model not found")) (py "a.wav") (py "large-v3") (py "fr")
  <> [Error (py "Erreur chargement modèle : " ++ py "model not found")].
Proof. intros H. vm_compute in H. discriminate H. Qed.

(** C6, amended. When loading the engine fails with message [e], the
    worker posts the single message Error "Erreur chargement modèle : e"
    (U+00A0 before the colon) and returns; once the window has polled
    it, Start is enabled again, Save is still disabled and the message
    has been shown in an error dialog. *)
Theorem load_failure_reported WhisperModel fs s model lang e :
  isfile fs (entry_file s) = true ->
  getitem MODELS (combo_model s) = Some model ->
  getitem LANGS (combo_lang s) = Some lang ->
  WhisperModel model = Raise e ->
  let msg := py "Erreur chargement modèle : " ++ e in
  let s1 := start_transcription fs s in
  let s2 := poll_queue
              (run_thread WhisperModel (mkRequest (entry_file s) model lang) s1) in
  (forall a l q0,
      worker_transcribe WhisperModel a model l q0 = (Returned tt, q0 ++ [Error msg])
      /\ emitted WhisperModel a model l = [Error msg])
  /\ btn_start s1 = disabled
  /\ btn_start s2 = normal
  /\ btn_save s2 = disabled
  /\ q s2 = []
  /\ dialogs s2 = dialogs s ++ [showerror (py "Erreur") msg].
Proof.
  intros Hf Hm Hl H1 msg s1 s2. split.
  - intros a l q0. unfold emitted.
    rewrite !(worker_load_error _ _ _ _ _ _ H1). auto.
  - subst s1 s2. rewrite (start_transcription_ok fs s model lang Hf Hm Hl).
    unfold poll_queue, run_thread. cbn [audio_path model_size lang_code q].
    rewrite (worker_load_error _ _ _ _ _ _ H1).
    cbn. repeat split; reflexivity.
Qed.

Lemma load_failure_reported_witness :
  emitted (broken_loader (py "model not found")) (py "a.wav") (py "large-v3") (py "fr")
  = [Error (py "Erreur chargement modèle : model not found")]
  /\ btn_start
       (poll_queue
          (run_thread (broken_loader (py "model not found")) sample_request
             (start_transcription sample_fs (browse_file (py "a.wav") init))))
     = normal
  /\ btn_save
       (poll_queue
          (run_thread (broken_loader (py "model not found")) sample_request
             (start_transcription sample_fs (browse_file (py "a.wav") init))))
     = disabled.
Proof.
  destruct (load_failure_reported (broken_loader (py "model not found")) sample_fs
              (browse_file (py "a.wav") init)
              (py "large-v3") (py "fr") (py "model not found")
              eq_refl eq_refl eq_refl eq_refl)
    as (Hw & _ & Hs & Hv & _).
  split; [exact (proj2 (Hw (py "a.wav") (py "fr") []))|].
  split; [exact Hs | exact Hv].
Defined.

End Runs.

(* ------------------------------------------------------------------ *)
(** ** Saving *)

Section Saving.

Variable str_UnicodeEncodeError : pystr -> pystr.
Variable pf : platform.

Lemma store_content fs path bs : content (store fs path bs) path = Some bs.
Proof. unfold store. cbn [content]. now rewrite pystr_eqb_refl. Qed.

(** What [save_txt] does when the file can be opened and written and
    the buffer can be encoded. *)
Lemma save_txt_ok path fs s text bs :
  truthy path = true ->
  open_error fs path = None ->
  write_error fs path = None ->
  full_text s = Some text ->
  utf8_encode (translate_newlines (linesep pf) text) = Some bs ->
  save_txt str_UnicodeEncodeError pf path fs s
  = (show (showinfo (py "Enregistré") (py "Fichier enregistré :" ++ LF ++ path)) s,
     store (store fs path []) path bs).
Proof.
  intros Hp Ho Hw Ht He. unfold save_txt. rewrite Hp, Ho, Ht, He.
  cbn [store write_error]. now rewrite Hw.
Qed.

(** C8, amended. Once the window has polled a queue whose last Done
    message carries [p], Save is enabled and, for a chosen path that can
    be opened and written, the file holds the UTF-8 encoding of [p] with
    every line break replaced by the platform's line separator, and
    nothing else; when [p] holds no carriage return, reading that file
    back as text gives [p]. *)
Theorem save_then_read_back path fs s p bs :
  last_done (q s) = Some p ->
  truthy path = true ->
  open_error fs path = None ->
  write_error fs path = None ->
  utf8_encode (translate_newlines (linesep pf) p) = Some bs ->
  let s1 := poll_queue s in
  let fs' := snd (click_save str_UnicodeEncodeError pf path fs s1) in
  full_text s1 = Some p
  /\ btn_save s1 = normal
  /\ content fs' path = Some bs
  /\ (~ In 13%Z p -> read_text fs' path = Some (Some p))
  /\ dialogs (fst (click_save str_UnicodeEncodeError pf path fs s1))
     = dialogs s1
       ++ [showinfo (py "Enregistré") (py "Fichier enregistré :" ++ LF ++ path)].
Proof.
  intros Hd Hp Ho Hw He s1 fs'.
  assert (Hft : full_text s1 = Some p).
  { subst s1. unfold poll_queue. now rewrite drain_full_text, Hd. }
  assert (Hbs : btn_save s1 = normal).
  { subst s1. unfold poll_queue.
    now rewrite drain_btn_save, (last_done_is_done _ _ Hd). }
  assert (Hsave : click_save str_UnicodeEncodeError pf path fs s1
                  = (show (showinfo (py "Enregistré")
                             (py "Fichier enregistré :" ++ LF ++ path)) s1,
                     store (store fs path []) path bs)).
  { unfold click_save. rewrite Hbs. now apply save_txt_ok with (text := p). }
  subst fs'. rewrite Hsave. cbn [fst snd].
  repeat split; try assumption.
  - apply store_content.
  - intros Hcr. unfold read_text. rewrite store_content. cbn [option_map].
    rewrite (utf8_round_trip _ bs He). cbn [option_map].
    now rewrite (universal_undoes_translate pf p Hcr).
Qed.

End Saving.

(** C8, as stated, fails.  On Windows the bytes written for the sample
    transcript are not its UTF-8 encoding: each line feed has become
    carriage return, line feed.  And on any platform a transcript that
    holds a carriage return is not read back as it was. *)
Lemma save_is_not_verbatim :
  content
    (snd (click_save (fun _ => []) windows (py "notes.txt") sample_fs after_first_run))
    (py "notes.txt")
  <> utf8_encode (py "Hello " ++ LF ++ py "world." ++ LF)
  /\ full_text
       (poll_queue
          (run_thread (engine_of [mkSegment 0 1 [97; 13]%Z] (mkInfo None)) sample_request
             (click_start sample_fs (browse_file (py "a.wav") init))))
     = Some [97; 13; 10]%Z
  /\ read_text
       (snd (click_save (fun _ => []) posix (py "notes.txt") sample_fs
               (poll_queue
                  (run_thread (engine_of [mkSegment 0 1 [97; 13]%Z] (mkInfo None))
                     sample_request
                     (click_start sample_fs (browse_file (py "a.wav") init))))))
       (py "notes.txt")
     <> Some (Some [97; 13; 10]%Z).
Proof.
  split; [|split].
  - intros H. vm_compute in H. discriminate H.
  - reflexivity.
  - intros H. vm_compute in H. discriminate H.
Qed.

Lemma save_then_read_back_witness :
  content
    (snd (click_save (fun _ => []) windows (py "notes.txt") sample_fs after_first_run))
    (py "notes.txt")
  = Some [72; 101; 108; 108; 111; 32; 13; 10; 119; 111; 114; 108; 100; 46; 13; 10]%Z
  /\ read_text
       (snd (click_save (fun _ => []) windows (py "notes.txt") sample_fs after_first_run))
       (py "notes.txt")
     = Some (Some (py "Hello " ++ LF ++ py "world." ++ LF)).
Proof.
  destruct (save_then_read_back (fun _ => []) windows (py "notes.txt") sample_fs
              (run_thread sample_engine sample_request
                 (click_start sample_fs (browse_file (py "a.wav") init)))
              (py "Hello " ++ LF ++ py "world." ++ LF)
              [72; 101; 108; 108; 111; 32; 13; 10; 119; 111; 114; 108; 100; 46; 13; 10]%Z
              eq_refl eq_refl eq_refl eq_refl eq_refl)
    as (_ & _ & Hc & Hr & _).
  split; [exact Hc|].
  apply Hr. intros H.
  repeat (destruct H as [H|H]; [discriminate H|]). exact H.
Defined.

(* ------------------------------------------------------------------ *)
(** ** More on the worker *)

Section WorkerMore.
Local Open Scope float_scope.

(** X1. When the model loads but [transcribe] raises with message [e],
    the run is the single message Error "Erreur transcription : e"
    (U+00A0 before the colon),
    posted behind what the queue held, and the thread returns. *)
Theorem transcribe_failure_single_error WhisperModel a m l mdl e :
  WhisperModel m = Ok mdl ->
  mdl a l = Raise e ->
  emitted WhisperModel a m l = [Error (py "Erreur transcription : " ++ e)]
  /\ forall q0,
       worker_transcribe WhisperModel a m l q0
       = (Returned tt, q0 ++ [Error (py "Erreur transcription : " ++ e)]).
Proof.
  intros H1 H2. split.
  - unfold emitted. now rewrite (worker_transcribe_error _ _ _ _ _ _ _ H1 H2).
  - intros q0. now apply worker_transcribe_error with (mdl := mdl).
Qed.

Lemma transcribe_failure_single_error_witness :
  emitted (fun _ => Ok (fun _ _ => Raise (py "bad audio")))
          (py "a.wav") (py "base") (py "fr")
  = [Error (py "Erreur transcription : bad audio")].
Proof.
  exact (proj1 (transcribe_failure_single_error
                  (fun _ => Ok (fun _ _ => Raise (py "bad audio")))
                  (py "a.wav") (py "base") (py "fr")
                  (fun _ _ => Raise (py "bad audio")) (py "bad audio")
                  eq_refl eq_refl)).
Defined.

(** X2. The worker only appends: whatever the queue holds when the
    thread runs is kept, in order, in front of the run's messages; those
    messages, and the way the thread ends, do not depend on what the
    queue held. *)
Theorem worker_only_appends WhisperModel a m l q0 :
  worker_transcribe WhisperModel a m l q0
  = (fst (worker_transcribe WhisperModel a m l []), q0 ++ emitted WhisperModel a m l).
Proof.
  destruct (worker_appends WhisperModel a m l q0) as [Hs Hf].
  transitivity (fst (worker_transcribe WhisperModel a m l q0),
                snd (worker_transcribe WhisperModel a m l q0));
    [apply surjective_pairing | now rewrite Hs, Hf].
Qed.

Lemma loop_events_length d segments done :
  List.length (loop_events d segments done) = (2 * List.length segments)%nat.
Proof.
  revert done. induction segments as [|seg rest IH]; intros done; simpl;
    [reflexivity|]. rewrite IH. lia.
Qed.

Lemma loop_events_progress_length d segments done :
  List.length (progress_payloads (loop_events d segments done)) = List.length segments.
Proof.
  revert done. induction segments as [|seg rest IH]; intros done; simpl;
    [reflexivity | now rewrite IH].
Qed.

(** X3. A run that goes through posts two messages per segment and
    one Done: its Text payloads are the segment texts in the engine's
    order, and there is one Progress per segment. *)
Theorem successful_run_counts WhisperModel a m l mdl segments info :
  WhisperModel m = Ok mdl ->
  mdl a l = Ok (yields segments, info) ->
  List.length (emitted WhisperModel a m l) = (2 * List.length segments + 1)%nat
  /\ text_payloads (emitted WhisperModel a m l) = map seg_text segments
  /\ List.length (progress_payloads (emitted WhisperModel a m l)) = List.length segments
  /\ last_done (emitted WhisperModel a m l) = Some (lines segments).
Proof.
  intros H1 H2. unfold emitted.
  rewrite (worker_success _ _ _ _ _ _ _ _ H1 H2). cbn [snd app].
  rewrite length_app, loop_events_length, text_payloads_app, progress_payloads_app,
    length_app, loop_events_texts, loop_events_progress_length, last_done_app_done.
  cbn. rewrite app_nil_r. repeat split; lia.
Qed.

Lemma successful_run_counts_witness :
  List.length (emitted sample_engine (py "a.wav") (py "base") (py "en")) = 5%nat
  /\ text_payloads (emitted sample_engine (py "a.wav") (py "base") (py "en"))
     = [py "Hello "; py "world."].
Proof.
  destruct (successful_run_counts sample_engine (py "a.wav") (py "base") (py "en")
              (fun _ _ => Ok (yields hello_world, mkInfo (Some 2.5)))
              hello_world (mkInfo (Some 2.5)) eq_refl eq_refl)
    as (Hn & Ht & _).
  split; [exact Hn | exact Ht].
Defined.

Lemma lines_empty segments : lines segments = [] <-> segments = [].
Proof.
  split.
  - destruct segments as [|seg rest]; [reflexivity|].
    unfold lines. cbn [map List.concat]. intros H.
    apply app_eq_nil in H. destruct H as [H _].
    apply app_eq_nil in H. destruct H as [_ H]. discriminate H.
  - intros ->. reflexivity.
Qed.

(** X5. In a run that goes through, the Done payload is the empty
    string exactly when the engine yielded no segment: every segment,
    even one with an empty text, leaves its line break. *)
Theorem empty_transcript_means_no_segment WhisperModel a m l mdl segments info :
  WhisperModel m = Ok mdl ->
  mdl a l = Ok (yields segments, info) ->
  (last_done (emitted WhisperModel a m l) = Some [] <-> segments = []).
Proof.
  intros H1 H2. unfold emitted.
  rewrite (worker_success _ _ _ _ _ _ _ _ H1 H2). cbn [snd app].
  rewrite last_done_app_done. split.
  - intros H. apply lines_empty. congruence.
  - intros ->. reflexivity.
Qed.

Lemma empty_transcript_means_no_segment_witness :
  last_done (emitted (engine_of [mkSegment 0 1 []] (mkInfo None))
                     (py "a.wav") (py "base") (py "fr")) <> Some [].
Proof.
  intros H.
  apply (proj1 (empty_transcript_means_no_segment
                  (engine_of [mkSegment 0 1 []] (mkInfo None))
                  (py "a.wav") (py "base") (py "fr")
                  (fun _ _ => Ok (yields [mkSegment 0 1 []], mkInfo None))
                  [mkSegment 0 1 []] (mkInfo None) eq_refl eq_refl)) in H.
  discriminate H.
Defined.

End WorkerMore.

(* ------------------------------------------------------------------ *)
(** ** More on the poll loop *)

Section PollMore.

Lemma last_cons_default (A : Type) (l : list A) (a d : A) :
  last (a :: l) d = last l a.
Proof.
  revert a d. induction l as [|b l IH]; intros a d; [reflexivity|].
  change (last (a :: b :: l) d) with (last (b :: l) d).
  now rewrite (IH b d), (IH b a).
Qed.

Lemma last_app_default (A : Type) (l1 l2 : list A) (d : A) :
  last (l1 ++ l2) d = last l2 (last l1 d).
Proof.
  revert d. induction l1 as [|a l1 IH]; intros d; [reflexivity|].
  rewrite <- app_comm_cons, !last_cons_default. apply IH.
Qed.

Lemma last_done_app evs1 evs2 :
  last_done (evs1 ++ evs2)
  = match last_done evs2 with Some p => Some p | None => last_done evs1 end.
Proof.
  induction evs1 as [|e evs1 IH]; simpl.
  - now destruct (last_done evs2).
  - rewrite IH. now destruct (last_done evs2).
Qed.

Lemma notices_app evs1 evs2 : notices (evs1 ++ evs2) = notices evs1 ++ notices evs2.
Proof.
  induction evs1 as [|[p|t|f|e] evs1 IH]; simpl; rewrite ?IH; reflexivity.
Qed.

(** The loop computes [polled], up to the queue field when there was
    nothing to consume. *)
Lemma drain_summary evs : forall s,
  q s = evs -> drain evs s = polled evs s.
Proof.
  induction evs as [|e rest IH]; intros s Hq.
  - destruct s as [cm cl ef pr tx bs bv ft qq th dl]. cbn in Hq. subst qq.
    unfold polled. cbn. now rewrite !app_nil_r.
  - cbn [drain]. rewrite IH by (destruct e; reflexivity).
    unfold polled.
    destruct e as [p|t|f|e]; cbn [dispatch set_q set_progress set_txt set_full_text
      set_btn_save set_btn_start show combo_model combo_lang entry_file progress txt
      btn_start btn_save full_text threads dialogs progress_payloads text_payloads
      existsb is_error is_done last_done notices orb List.concat];
      rewrite ?last_cons_default, <- ?app_assoc;
      destruct (last_done rest), (existsb is_done rest), (existsb is_error rest);
      reflexivity.
Qed.

Lemma poll_queue_polled s : poll_queue s = polled (q s) s.
Proof. unfold poll_queue. now apply drain_summary. Qed.

End PollMore.

Section PollProperties.
Local Open Scope float_scope.

(** X6. What one poll does: it empties the queue; the bar shows the last
    Progress payload polled (or stays); the Text payloads are appended to
    the displayed text in queue order; the buffer takes the last Done
    payload (or stays); a Done enables Save and an Error enables Start,
    and no button is ever disabled; one dialog is shown per Done or Error;
    no thread is started and the form inputs are left alone. *)
Theorem poll_queue_effect s :
  q (poll_queue s) = []
  /\ progress (poll_queue s) = last (progress_payloads (q s)) (progress s)
  /\ txt (poll_queue s) = txt s ++ List.concat (text_payloads (q s))
  /\ full_text (poll_queue s)
     = match last_done (q s) with Some p => Some p | None => full_text s end
  /\ btn_save (poll_queue s) = (if existsb is_done (q s) then normal else btn_save s)
  /\ btn_start (poll_queue s) = (if existsb is_error (q s) then normal else btn_start s)
  /\ dialogs (poll_queue s) = dialogs s ++ notices (q s)
  /\ threads (poll_queue s) = threads s
  /\ entry_file (poll_queue s) = entry_file s
  /\ combo_model (poll_queue s) = combo_model s
  /\ combo_lang (poll_queue s) = combo_lang s.
Proof. rewrite poll_queue_polled. unfold polled. cbn. repeat split. Qed.

(** X7. Polling does not depend on when the timer fires: polling after
    a first batch of messages and again after a second batch leaves the
    window as one poll after both batches does. *)
Theorem poll_in_two_batches evs1 evs2 s :
  poll_queue (post evs2 (poll_queue (post evs1 s)))
  = poll_queue (post (evs1 ++ evs2) s).
Proof.
  rewrite !poll_queue_polled. unfold post, polled.
  cbn [q set_q combo_model combo_lang entry_file progress txt btn_start btn_save
       full_text threads dialogs app].
  rewrite (app_assoc (q s) evs1 evs2).
  rewrite !progress_payloads_app, !text_payloads_app, !existsb_app, !last_done_app,
    !notices_app, !concat_app, !last_app_default, <- !app_assoc.
  destruct (last_done evs2), (existsb is_done evs2), (existsb is_error evs2);
    rewrite ?orb_true_r, ?orb_false_r; reflexivity.
Qed.

(** X8. A poll that finds the queue already drained changes nothing:
    polling twice in a row is polling once, and no dialog is shown a
    second time. *)
Theorem poll_queue_idempotent s : poll_queue (poll_queue s) = poll_queue s.
Proof.
  rewrite (poll_queue_polled (poll_queue s)), (poll_queue_empties s).
  rewrite poll_queue_polled. unfold polled. cbn. now rewrite !app_nil_r.
Qed.

Lemma loop_last_progress d segments : forall done x,
  last (progress_payloads (loop_events d segments done)) x
  = match segments with
    | [] => x
    | _ => fraction d (fold_left (fun done seg => done + (seg_end seg - seg_start seg))
                                 segments done)
    end.
Proof.
  induction segments as [|seg rest IH]; intros done x; [reflexivity|].
  cbn [loop_events progress_payloads fold_left].
  rewrite last_cons_default, IH. destruct rest; reflexivity.
Qed.

(** X9. After Start, a run that goes through and one poll, the value
    last handed to the progress bar is the covered fraction as the
    worker computed it in floats: the segment lengths added up in order,
    divided by the reported duration (by 1 without one), passed through
    [min(_, 1.0)]; with no segment it is the 0 set by Start.  The Done
    message does not set it to 1. *)
Theorem bar_after_successful_run WhisperModel fs s model lang mdl segments info :
  isfile fs (entry_file s) = true ->
  getitem MODELS (combo_model s) = Some model ->
  getitem LANGS (combo_lang s) = Some lang ->
  WhisperModel model = Ok mdl ->
  mdl (entry_file s) lang = Ok (yields segments, info) ->
  progress
    (poll_queue
       (run_thread WhisperModel (mkRequest (entry_file s) model lang)
          (start_transcription fs s)))
  = match segments with
    | [] => 0
    | _ => fraction (or_1 (duration info)) (covered segments)
    end.
Proof.
  intros Hf Hm Hl H1 H2.
  rewrite poll_queue_polled. unfold run_thread.
  rewrite (start_transcription_ok fs s model lang Hf Hm Hl).
  cbn [q set_q audio_path model_size lang_code].
  rewrite (worker_success _ _ _ _ _ _ _ _ H1 H2). cbn [snd app].
  unfold polled. cbn [progress].
  rewrite progress_payloads_app. cbn [progress_payloads]. rewrite app_nil_r.
  now rewrite loop_last_progress.
Qed.

Lemma bar_after_successful_run_witness :
  progress
    (poll_queue
       (run_thread (engine_of [mkSegment 1 2 (py "Oui.")] (mkInfo (Some 4)))
          sample_request
          (start_transcription sample_fs (browse_file (py "a.wav") init))))
  = fraction 4 (covered [mkSegment 1 2 (py "Oui.")])
  /\ fraction 4 (covered [mkSegment 1 2 (py "Oui.")]) = 0.25.
Proof.
  split; [|reflexivity].
  exact (bar_after_successful_run
           (engine_of [mkSegment 1 2 (py "Oui.")] (mkInfo (Some 4))) sample_fs
           (browse_file (py "a.wav") init) (py "large-v3") (py "fr")
           (fun _ _ => Ok (yields [mkSegment 1 2 (py "Oui.")], mkInfo (Some 4)))
           [mkSegment 1 2 (py "Oui.")] (mkInfo (Some 4))
           eq_refl eq_refl eq_refl eq_refl eq_refl).
Defined.

End PollProperties.

(* ------------------------------------------------------------------ *)
(** ** More on Start and Browse *)

Section StartMore.

Lemma pystr_eqb_eq s : forall t, pystr_eqb s t = true -> s = t.
Proof.
  induction s as [|a s IH]; intros [|b t]; simpl; try discriminate; [reflexivity|].
  intros H. apply andb_true_iff in H. destruct H as [Hab Hst].
  apply Z.eqb_eq in Hab. subst b. now rewrite (IH t Hst).
Qed.

Lemma pystr_eqb_neq s t : s <> t -> pystr_eqb s t = false.
Proof.
  intros Hne. destruct (pystr_eqb s t) eqn:E; [|reflexivity].
  exfalso. apply Hne. now apply pystr_eqb_eq.
Qed.

Lemma getitem_in_values d k v : getitem d k = Some v -> In v (values d).
Proof.
  induction d as [|[k' v'] d IH]; simpl; [discriminate|].
  destruct (pystr_eqb k' k).
  - intros [= ->]. now left.
  - intros H. right. now apply IH.
Qed.

Lemma getitem_of_key d k : In k (keys d) -> exists v, getitem d k = Some v.
Proof.
  induction d as [|[k' v'] d IH]; simpl; [contradiction|].
  intros [->|Hin].
  - rewrite pystr_eqb_refl. eauto.
  - destruct (pystr_eqb k' k); [eauto | now apply IH].
Qed.

Lemma getitem_none_not_key d k : getitem d k = None -> ~ In k (keys d).
Proof.
  intros Hn Hin. destruct (getitem_of_key d k Hin) as [v Hv]. congruence.
Qed.

(** The state a [KeyError] leaves: the reset is done, the rest is not. *)
Lemma start_keyerror_state fs s :
  isfile fs (entry_file s) = true ->
  getitem MODELS (combo_model s) = None \/ getitem LANGS (combo_lang s) = None ->
  start_transcription fs s
  = mkApp (combo_model s) (combo_lang s) (entry_file s) 0%float [] disabled disabled
          (full_text s) (q s) (threads s) (dialogs s).
Proof.
  intros Hf Hk. unfold start_transcription. rewrite Hf.
  cbn [negb combo_model combo_lang set_txt set_progress set_btn_start set_btn_save].
  destruct Hk as [Hm|Hl].
  - now rewrite Hm.
  - rewrite Hl. now destruct (getitem MODELS (combo_model s)).
Qed.

(** X10. When the file exists but a combo box holds a label that is in
    neither table, the [KeyError] ends Start half way: the text is
    cleared, the bar is at 0 and both buttons are disabled, while no
    thread is started, the queue is not cleared and no dialog is shown. *)
Theorem start_with_unknown_label fs s :
  isfile fs (entry_file s) = true ->
  getitem MODELS (combo_model s) = None \/ getitem LANGS (combo_lang s) = None ->
  txt (start_transcription fs s) = []
  /\ progress (start_transcription fs s) = 0%float
  /\ btn_start (start_transcription fs s) = disabled
  /\ btn_save (start_transcription fs s) = disabled
  /\ threads (start_transcription fs s) = threads s
  /\ q (start_transcription fs s) = q s
  /\ dialogs (start_transcription fs s) = dialogs s
  /\ full_text (start_transcription fs s) = full_text s.
Proof.
  intros Hf Hk. rewrite (start_keyerror_state fs s Hf Hk). cbn. repeat split.
Qed.

Lemma start_with_unknown_label_witness :
  btn_start
    (click_start sample_fs
       (set_combo_model (py "Huge")
          (post [Text (py "old")] (browse_file (py "a.wav") init))))
  = disabled
  /\ threads
       (click_start sample_fs
          (set_combo_model (py "Huge")
             (post [Text (py "old")] (browse_file (py "a.wav") init))))
     = []
  /\ q (click_start sample_fs
          (set_combo_model (py "Huge")
             (post [Text (py "old")] (browse_file (py "a.wav") init))))
     = [Text (py "old")].
Proof.
  destruct (start_with_unknown_label sample_fs
              (set_combo_model (py "Huge")
                 (post [Text (py "old")] (browse_file (py "a.wav") init)))
              eq_refl (or_introl eq_refl))
    as (_ & _ & Hb & _ & Ht & Hq & _).
  split; [exact Hb | split; [exact Ht | exact Hq]].
Defined.

(** X11. Start starts at most one thread, and only with arguments it
    has checked: the path in the path field, which names an existing
    file, and identifiers taken from the two tables; the queue is then
    empty.  Otherwise the list of threads is unchanged. *)
Theorem start_checks_its_request fs s :
  threads (start_transcription fs s) = threads s
  \/ exists r,
       threads (start_transcription fs s) = threads s ++ [r]
       /\ audio_path r = entry_file s
       /\ isfile fs (audio_path r) = true
       /\ getitem MODELS (combo_model s) = Some (model_size r)
       /\ getitem LANGS (combo_lang s) = Some (lang_code r)
       /\ known_request r
       /\ q (start_transcription fs s) = [].
Proof.
  destruct (isfile fs (entry_file s)) eqn:Hf.
  - destruct (getitem MODELS (combo_model s)) as [model|] eqn:Hm.
    + destruct (getitem LANGS (combo_lang s)) as [lang|] eqn:Hl.
      * right. exists (mkRequest (entry_file s) model lang).
        rewrite (start_transcription_ok fs s model lang Hf Hm Hl). cbn.
        repeat split; try assumption; eapply getitem_in_values; eassumption.
      * left. now rewrite (start_keyerror_state fs s Hf (or_intror Hl)).
    + left. now rewrite (start_keyerror_state fs s Hf (or_introl Hm)).
  - left. unfold start_transcription. now rewrite Hf.
Qed.

(** X12. Every label the two combo boxes offer is accepted: with an
    existing file and labels among the keys of the tables, Start starts
    exactly one thread. *)
Theorem offered_labels_start_a_thread fs s :
  isfile fs (entry_file s) = true ->
  In (combo_model s) (keys MODELS) ->
  In (combo_lang s) (keys LANGS) ->
  exists model lang,
    threads (start_transcription fs s)
    = threads s ++ [mkRequest (entry_file s) model lang]
    /\ In model (values MODELS) /\ In lang (values LANGS).
Proof.
  intros Hf Hm Hl.
  destruct (getitem_of_key MODELS _ Hm) as [model Em].
  destruct (getitem_of_key LANGS _ Hl) as [lang El].
  exists model, lang.
  rewrite (start_transcription_ok fs s model lang Hf Em El). cbn [threads].
  repeat split; eapply getitem_in_values; eassumption.
Qed.

Lemma offered_labels_start_a_thread_witness :
  exists model lang,
    threads (start_transcription sample_fs (browse_file (py "a.wav") init))
    = [mkRequest (py "a.wav") model lang]
    /\ In model (values MODELS) /\ In lang (values LANGS).
Proof.
  apply (offered_labels_start_a_thread sample_fs (browse_file (py "a.wav") init)).
  - reflexivity.
  - cbn. do 4 right. left. reflexivity.
  - cbn. left. reflexivity.
Defined.

Lemma click_after_browse fs s path model lang :
  truthy path = true ->
  isfile fs path = true ->
  getitem MODELS (combo_model s) = Some model ->
  getitem LANGS (combo_lang s) = Some lang ->
  click_start fs (browse_file path s)
  = mkApp (combo_model s) (combo_lang s) path 0%float [] disabled disabled
          (full_text s) [] (threads s ++ [mkRequest path model lang]) (dialogs s).
Proof.
  intros Hp Hf Hm Hl. unfold browse_file, click_start. rewrite Hp.
  cbn [btn_start set_btn_start set_entry_file].
  exact (start_transcription_ok fs (set_btn_start normal (set_entry_file path s))
           model lang Hf Hm Hl).
Qed.

(** X13. Browse enables Start whatever the window is doing: choosing a
    file and clicking Start twice in a row, with no poll in between,
    starts two threads on the same queue.  Nothing makes the second
    click wait for the first run. *)
Theorem browse_allows_a_second_start fs s path model lang :
  truthy path = true ->
  isfile fs path = true ->
  getitem MODELS (combo_model s) = Some model ->
  getitem LANGS (combo_lang s) = Some lang ->
  threads (click_start fs (browse_file path (click_start fs (browse_file path s))))
  = threads s ++ [mkRequest path model lang; mkRequest path model lang].
Proof.
  intros Hp Hf Hm Hl.
  rewrite (click_after_browse fs s path model lang Hp Hf Hm Hl).
  match goal with
  | |- context [browse_file path ?s1] =>
      rewrite (click_after_browse fs s1 path model lang Hp Hf Hm Hl)
  end.
  cbn [threads]. now rewrite <- app_assoc.
Qed.

Lemma browse_allows_a_second_start_witness :
  threads (click_start sample_fs (browse_file (py "a.wav")
            (click_start sample_fs (browse_file (py "a.wav") init))))
  = [sample_request; sample_request].
Proof.
  exact (browse_allows_a_second_start sample_fs init (py "a.wav") (py "large-v3")
           (py "fr") eq_refl eq_refl eq_refl eq_refl).
Defined.

End StartMore.

(* ------------------------------------------------------------------ *)
(** ** More on Save *)

Section SaveMore.

Variable str_UnicodeEncodeError : pystr -> pystr.
Variable pf : platform.

Lemma save_txt_window path fs s :
  fst (save_txt str_UnicodeEncodeError pf path fs s) = s
  \/ exists d, fst (save_txt str_UnicodeEncodeError pf path fs s) = show d s.
Proof.
  unfold save_txt. destruct (truthy path); [|now left].
  destruct (open_error fs path); [right; eexists; reflexivity|].
  destruct (full_text s) as [text|]; [|right; eexists; reflexivity].
  destruct (utf8_encode (translate_newlines (linesep pf) text));
    [|right; eexists; reflexivity].
  destruct (write_error (store fs path []) path) as [[e remains]|];
    right; eexists; reflexivity.
Qed.

(** X14. Save only ever shows a dialog and only ever writes the chosen
    file: the window is otherwise unchanged (buffer, buttons, text,
    queue and threads), every other file keeps its content, and at most
    one dialog is added. *)
Theorem save_txt_is_confined path fs s :
  (fst (save_txt str_UnicodeEncodeError pf path fs s) = s
   \/ exists d, fst (save_txt str_UnicodeEncodeError pf path fs s) = show d s)
  /\ full_text (fst (save_txt str_UnicodeEncodeError pf path fs s)) = full_text s
  /\ btn_save (fst (save_txt str_UnicodeEncodeError pf path fs s)) = btn_save s
  /\ btn_start (fst (save_txt str_UnicodeEncodeError pf path fs s)) = btn_start s
  /\ txt (fst (save_txt str_UnicodeEncodeError pf path fs s)) = txt s
  /\ q (fst (save_txt str_UnicodeEncodeError pf path fs s)) = q s
  /\ threads (fst (save_txt str_UnicodeEncodeError pf path fs s)) = threads s
  /\ forall p, p <> path ->
       content (snd (save_txt str_UnicodeEncodeError pf path fs s)) p = content fs p.
Proof.
  split; [apply save_txt_window|].
  assert (Hfs : forall p, p <> path ->
            content (snd (save_txt str_UnicodeEncodeError pf path fs s)) p = content fs p).
  { intros p Hp. unfold save_txt. destruct (truthy path); [|reflexivity].
    destruct (open_error fs path); [reflexivity|].
    destruct (full_text s) as [text|];
      [destruct (utf8_encode (translate_newlines (linesep pf) text));
         [destruct (write_error (store fs path []) path) as [[e remains]|]|]|];
      cbn [snd store content]; rewrite ?(pystr_eqb_neq p path Hp); reflexivity. }
  destruct (save_txt_window path fs s) as [->|[d ->]]; repeat split; exact Hfs.
Qed.

Lemma surrogate_not_encoded c : is_surrogate c = true -> encode_cp c = None.
Proof.
  intros Hs. unfold encode_cp. rewrite Hs.
  unfold is_surrogate in Hs. apply andb_true_iff in Hs. destruct Hs as [Hlo Hhi].
  apply Z.leb_le in Hlo. apply Z.leb_le in Hhi.
  destruct (Z.ltb_spec c 0); [lia|].
  destruct (Z.ltb_spec c 128); [lia|].
  destruct (Z.ltb_spec c 2048); [lia|].
  destruct (Z.ltb_spec c 65536); [reflexivity | lia].
Qed.

Lemma surrogate_survives_translation sep text c :
  In c text -> is_surrogate c = true -> In c (translate_newlines sep text).
Proof.
  intros Hin Hs. induction text as [|c' text IH]; [contradiction|].
  cbn [translate_newlines]. destruct (Z.eqb_spec c' 10) as [->|_].
  - apply in_or_app. right. destruct Hin as [<-|Hin]; [discriminate Hs | now apply IH].
  - destruct Hin as [->|Hin]; [now left | right; now apply IH].
Qed.

Lemma utf8_encode_surrogate text c :
  In c text -> is_surrogate c = true -> utf8_encode text = None.
Proof.
  intros Hin Hs. induction text as [|c' text IH]; [contradiction|].
  cbn [utf8_encode]. destruct Hin as [->|Hin].
  - now rewrite (surrogate_not_encoded c Hs).
  - rewrite (IH Hin). now destruct (encode_cp c').
Qed.

(** X15. A buffer holding a lone surrogate cannot be written: Save has
    already opened the chosen file for writing, so the file is left
    empty, whatever it held, and the encoding error is shown. *)
Theorem save_unencodable_empties_file path fs s text c :
  truthy path = true ->
  open_error fs path = None ->
  full_text s = Some text ->
  In c text ->
  is_surrogate c = true ->
  content (snd (save_txt str_UnicodeEncodeError pf path fs s)) path = Some []
  /\ fst (save_txt str_UnicodeEncodeError pf path fs s)
     = show (showerror (py "Erreur") (str_UnicodeEncodeError text)) s.
Proof.
  intros Hp Ho Ht Hin Hs. unfold save_txt.
  rewrite Hp, Ho, Ht.
  rewrite (utf8_encode_surrogate _ c
             (surrogate_survives_translation (linesep pf) text c Hin Hs) Hs).
  cbn [fst snd].
  split; [apply store_content | reflexivity].
Qed.

End SaveMore.

Lemma save_txt_is_confined_witness :
  py "a.wav" <> py "notes.txt"
  /\ content
       (snd (save_txt (fun _ => []) posix (py "notes.txt") sample_fs
               (set_full_text (Some (py "Bonjour")) init)))
       (py "a.wav")
     = content sample_fs (py "a.wav").
Proof.
  assert (Hne : py "a.wav" <> py "notes.txt") by discriminate.
  split; [exact Hne|].
  destruct (save_txt_is_confined (fun _ => []) posix (py "notes.txt") sample_fs
              (set_full_text (Some (py "Bonjour")) init))
    as (_ & _ & _ & _ & _ & _ & _ & Hfs).
  exact (Hfs (py "a.wav") Hne).
Defined.

Lemma save_unencodable_empties_file_witness :
  content sample_fs (py "a.wav") = Some [82; 73; 70; 70]%Z
  /\ content
       (snd (save_txt (fun _ => py "surrogates not allowed") windows (py "a.wav")
               sample_fs
               (set_full_text (Some [97; 55296]%Z) init)))
       (py "a.wav")
     = Some [].
Proof.
  split; [reflexivity|].
  exact (proj1 (save_unencodable_empties_file
                  (fun _ => py "surrogates not allowed") windows (py "a.wav") sample_fs
                  (set_full_text (Some [97; 55296]%Z) init) [97; 55296]%Z 55296%Z
                  eq_refl eq_refl eq_refl (or_intror (or_introl eq_refl)) eq_refl)).
Defined.

(* ------------------------------------------------------------------ *)
(** ** What holds whatever the user and the threads do *)

Section Always.

Variable str_UnicodeEncodeError : pystr -> pystr.
Variable pf : platform.

Lemma run_keeps (P : App -> Prop) :
  (forall a s, P s -> P (step str_UnicodeEncodeError pf a s)) ->
  forall acts s, P s -> P (run str_UnicodeEncodeError pf acts s).
Proof.
  intros Hstep acts. unfold run.
  induction acts as [|a acts IH]; intros s Hs; [exact Hs|].
  cbn [fold_left]. apply IH. now apply Hstep.
Qed.

Lemma no_done_no_last evs : last_done evs = None -> existsb is_done evs = false.
Proof.
  induction evs as [|e evs IH]; [reflexivity|]. cbn [last_done existsb].
  destruct (last_done evs); [discriminate|].
  intros H. rewrite (IH eq_refl). now destruct e.
Qed.

Lemma start_keeps_buffer_rule fs s :
  (btn_save s = normal -> full_text s <> None) ->
  btn_save (start_transcription fs s) = normal ->
  full_text (start_transcription fs s) <> None.
Proof.
  intros Hs. unfold start_transcription.
  destruct (isfile fs (entry_file s)); cbn [negb]; [|exact Hs].
  cbn [combo_model combo_lang set_txt set_progress set_btn_start set_btn_save].
  destruct (getitem MODELS (combo_model s)); [|discriminate].
  destruct (getitem LANGS (combo_lang s)); discriminate.
Qed.

Lemma step_keeps_buffer_rule a s :
  (btn_save s = normal -> full_text s <> None) ->
  btn_save (step str_UnicodeEncodeError pf a s) = normal ->
  full_text (step str_UnicodeEncodeError pf a s) <> None.
Proof.
  intros Hs. destruct a as [path|text|label|label|fs|path fs| |e]; cbn [step].
  - unfold browse_file. destruct (truthy path); exact Hs.
  - exact Hs.
  - exact Hs.
  - exact Hs.
  - unfold click_start. destruct (btn_start s); [|exact Hs].
    now apply start_keeps_buffer_rule.
  - unfold click_save. destruct (btn_save s) eqn:Hb;
      [|cbn [fst]; rewrite Hb; discriminate].
    destruct (save_txt_window str_UnicodeEncodeError pf path fs s) as [->|[d ->]];
      cbn [show btn_save full_text]; intros _; now apply Hs.
  - rewrite poll_queue_polled. unfold polled. cbn [btn_save full_text].
    destruct (last_done (q s)) eqn:Hd; [discriminate|].
    now rewrite (no_done_no_last (q s) Hd).
  - exact Hs.
Qed.

(** X16. Whatever the user does and whatever is posted on the queue,
    starting from the fresh window, Save is enabled only when the
    buffer has been assigned: the Save handler never meets a window
    without [full_text]. *)
Theorem save_enabled_means_buffer acts :
  btn_save (run str_UnicodeEncodeError pf acts init) = normal ->
  exists text, full_text (run str_UnicodeEncodeError pf acts init) = Some text.
Proof.
  intros Hb.
  assert (H : btn_save (run str_UnicodeEncodeError pf acts init) = normal ->
              full_text (run str_UnicodeEncodeError pf acts init) <> None).
  { apply (run_keeps (fun s => btn_save s = normal -> full_text s <> None)).
    - intros a s. apply step_keeps_buffer_rule.
    - discriminate. }
  destruct (full_text (run str_UnicodeEncodeError pf acts init)) as [text|] eqn:E.
  - eauto.
  - exfalso. now apply H.
Qed.

Lemma start_threads_known fs s :
  Forall known_request (threads s) ->
  Forall known_request (threads (start_transcription fs s)).
Proof.
  intros Hs. unfold start_transcription.
  destruct (isfile fs (entry_file s)); cbn [negb]; [|exact Hs].
  cbn [combo_model combo_lang set_txt set_progress set_btn_start set_btn_save].
  destruct (getitem MODELS (combo_model s)) as [model|] eqn:Hm; [|exact Hs].
  destruct (getitem LANGS (combo_lang s)) as [lang|] eqn:Hl; [|exact Hs].
  cbn [threads start_thread set_q]. apply Forall_app. split; [exact Hs|].
  constructor; [|constructor].
  split; cbn [model_size lang_code]; eapply getitem_in_values; eassumption.
Qed.

Lemma step_threads_known a s :
  Forall known_request (threads s) ->
  Forall known_request (threads (step str_UnicodeEncodeError pf a s)).
Proof.
  intros Hs. destruct a as [path|text|label|label|fs|path fs| |e]; cbn [step].
  - unfold browse_file. destruct (truthy path); exact Hs.
  - exact Hs.
  - exact Hs.
  - exact Hs.
  - unfold click_start. destruct (btn_start s); [|exact Hs].
    now apply start_threads_known.
  - unfold click_save. destruct (btn_save s); [|exact Hs].
    destruct (save_txt_window str_UnicodeEncodeError pf path fs s) as [->|[d ->]];
      exact Hs.
  - rewrite poll_queue_polled. exact Hs.
  - exact Hs.
Qed.

(** X17. Whatever the user types or selects, every thread the window
    ever starts gets a model identifier and a language code taken from
    the two tables. *)
Theorem threads_get_known_identifiers acts :
  Forall known_request (threads (run str_UnicodeEncodeError pf acts init)).
Proof.
  apply (run_keeps (fun s => Forall known_request (threads s))).
  - intros a s. apply step_threads_known.
  - constructor.
Qed.

End Always.

Lemma save_enabled_means_buffer_witness :
  exists text,
    full_text
      (run (fun _ => []) posix [Browse (py "a.wav"); ClickStart sample_fs;
                          Post (Done (py "Bonjour")); Poll] init)
    = Some text.
Proof.
  exact (save_enabled_means_buffer (fun _ => []) posix
           [Browse (py "a.wav"); ClickStart sample_fs; Post (Done (py "Bonjour")); Poll]
           eq_refl).
Defined.

(* ------------------------------------------------------------------ *)
(** ** The asset cache *)

Section AssetCache.

Variable Disk : Type.
Variable path_exists : Disk -> pystr -> bool.
Variable mkdir_p : pystr -> Disk -> Disk * option pystr.
Variable copy2 : pystr -> pystr -> Disk -> Disk * option pystr.
Variable joinpath : pystr -> pystr -> pystr.

Lemma copy_loop_skips src dst names : forall d out,
  (forall fname, In fname names ->
     path_exists d (joinpath src fname) = false
     \/ path_exists d (joinpath dst fname) = true) ->
  Assets.copy_loop Disk path_exists copy2 joinpath src dst names d out = (d, out).
Proof.
  induction names as [|fname rest IH]; intros d out H; [reflexivity|].
  cbn [Assets.copy_loop].
  assert (Hskip : path_exists d (joinpath src fname)
                  && negb (path_exists d (joinpath dst fname)) = false).
  { destruct (H fname (or_introl eq_refl)) as [E|E]; rewrite E;
      [reflexivity | apply andb_false_r]. }
  rewrite Hskip. apply IH. intros f Hf. apply H. now right.
Qed.

(** X18. Once the cache directory is there, an asset is copied only
    when the bundle has it and the cache lacks it: if for each of the
    two names the source is missing or the cached file exists, nothing
    is copied whatever [shutil.copy2] would do, nothing is printed and
    nothing is raised.  A cached file is never overwritten. *)
Theorem cached_assets_left_alone meipass here home d d1 :
  mkdir_p (Assets.dst_assets joinpath home) d = (d1, None) ->
  (forall fname, In fname Assets.asset_names ->
     path_exists d1 (joinpath (Assets.src_assets joinpath meipass here) fname) = false
     \/ path_exists d1 (joinpath (Assets.dst_assets joinpath home) fname) = true) ->
  Assets._ensure_vad_assets Disk path_exists mkdir_p copy2 joinpath meipass here home d
  = (d1, [], None).
Proof.
  intros Hmk Hskip. unfold Assets._ensure_vad_assets. rewrite Hmk.
  now rewrite (copy_loop_skips _ _ _ d1 [] Hskip).
Qed.

End AssetCache.

Lemma cached_assets_left_alone_witness :
  Assets._ensure_vad_assets (list pystr) Assets.toy_exists Assets.toy_mkdir
    (Assets.toy_copy2 [])
    Assets.toy_join None (py "/app") (py "/home/u")
    [py "/home/u/.cache/faster-whisper/assets/silero_encoder_v5.onnx";
     py "/app/assets/silero_encoder_v5.onnx"]
  = ([py "/home/u/.cache/faster-whisper/assets";
      py "/home/u/.cache/faster-whisper/assets/silero_encoder_v5.onnx";
      py "/app/assets/silero_encoder_v5.onnx"], [], None).
Proof.
  apply (cached_assets_left_alone (list pystr) Assets.toy_exists Assets.toy_mkdir
           (Assets.toy_copy2 []) Assets.toy_join None (py "/app") (py "/home/u")).
  - reflexivity.
  - intros fname [<-|[<-|[]]]; [right | left]; reflexivity.
Defined.
